(** * Duty planner: the single-day schedule generator

    A shallow embedding of [generate_schedule_for_date] (src/app.py) over
    the three tables of src/models.py, and the properties of the generator
    stated in the specification.

    Conventions of the embedding:
    - Python strings are UTF-8 byte strings ([string]); [kw in s] is the
      byte-wise substring test, which on well-formed UTF-8 coincides with
      the code-point test.
    - A table is the list of its rows in the order a query returns them.
    - A [Soldier] object loaded by [Soldier.query.all()] is referred to by
      its position in [all_soldiers]: mutating the object updates that
      position (object identity, not primary-key lookup).
    - A pending [Assignment] has [id = None]; the database allocates the
      primary key when the row is inserted at commit.
    - [total_services] and [is_available] are the integer and the
      boolean the column defaults give every row the application
      writes; a soldier's [id] is its primary key.
    - A commit either applies everything the session holds or raises
      and applies nothing; which commits the store accepts is an
      input of the model ([Faults]). *)

From Stdlib Require Import Ascii String ZArith.
From stdpp Require Import base numbers list gmap sets strings.

Local Open Scope string_scope.
Local Open Scope Z_scope.
Local Open Scope list_scope.

(** ** Data model (src/models.py) *)

(** [datetime.date]: only equality of dates is used by the generator. *)
Record date := Date { year : Z; month : Z; day : Z }.

#[global] Instance date_eq_dec : EqDecision date.
Proof. solve_decision. Defined.

Module Soldier.
Record t := mk {
  id : Z;
  name : string;
  rank : string;
  role : string;
  total_services : Z;
  is_available : bool
}.
End Soldier.

Module Assignment.
Record t := mk {
  id : option Z;
  soldier_id : Z;
  date : date;
  shift_type : string;
  confirmed : bool
}.
End Assignment.

Module Unavailability.
Record t := mk {
  id : Z;
  soldier_id : Z;
  date : date;
  reason : string
}.
End Unavailability.

#[global] Instance soldier_eq_dec : EqDecision Soldier.t.
Proof. solve_decision. Defined.

#[global] Instance assignment_eq_dec : EqDecision Assignment.t.
Proof. solve_decision. Defined.

#[global] Instance unavailability_eq_dec : EqDecision Unavailability.t.
Proof. solve_decision. Defined.

(** The committed contents of the database. *)
Record Db := {
  soldiers : list Soldier.t;
  assignments : list Assignment.t;
  unavailabilities : list Unavailability.t
}.

(** ** Strings *)

(** Python's [sub in s]. *)
Fixpoint contains (sub s : string) : bool :=
  String.prefix sub s ||
  match s with
  | EmptyString => false
  | String _ s' => contains sub s'
  end.

(** ** The generator's constants (app.py, lines 76-82 and 118) *)

Definition slots : list string :=
  [ "Σκοπιά 00:00-02:00";
    "Σκοπιά 02:00-04:00";
    "Σκοπιά 04:00-06:00";
    "Θαλαμοφύλακας Ημέρας";
    "Κουζίνα Πρωί" ].

Definition role_keywords : list string :=
  [ "Σκοπιά"; "Θαλαμοφύλακας"; "Κουζίνα" ].

(** ** Candidate pool (app.py, lines 106-133) *)

(** The inner [for keyword in role_keywords] loop with its [break]:
    returns [(shift_has_keyword, soldier_has_matching_role)]. *)
Fixpoint scan_keywords (keywords : list string) (shift_type role : string)
  : bool * bool :=
  match keywords with
  | [] => (false, false)
  | keyword :: rest =>
      if contains keyword shift_type
      then (true, contains keyword role)
      else scan_keywords rest shift_type role
  end.

(** The body of [for soldier in all_soldiers]: [true] when the soldier
    reaches [candidates.append(soldier)], [false] on each [continue]. *)
Definition is_candidate (unavailable_soldier_ids already_assigned_today : gset Z)
    (shift_type : string) (soldier : Soldier.t) : bool :=
  if negb (Soldier.is_available soldier) then false
  else if bool_decide (Soldier.id soldier ∈ unavailable_soldier_ids) then false
  else if bool_decide (Soldier.id soldier ∈ already_assigned_today) then false
  else
    let '(shift_has_keyword, soldier_has_matching_role) :=
      scan_keywords role_keywords shift_type (Soldier.role soldier) in
    if shift_has_keyword && negb soldier_has_matching_role then false
    else true.

(** A reference to a loaded soldier object: its position in
    [all_soldiers] together with the object's current fields. *)
Definition soldier_ref : Type := nat * Soldier.t.

Definition candidates_of (unavailable_soldier_ids already_assigned_today : gset Z)
    (shift_type : string) (all_soldiers : list Soldier.t) : list soldier_ref :=
  filter
    (λ r : soldier_ref,
       is_candidate unavailable_soldier_ids already_assigned_today
                    shift_type r.2 = true)
    (imap pair all_soldiers).

(** ** Selection (app.py, line 137) *)

(** The sort key [(s.total_services, s.id)]. *)
Definition key (s : Soldier.t) : Z * Z :=
  (Soldier.total_services s, Soldier.id s).

(** Python's [<] on pairs of integers. *)
Definition key_ltb (a b : Z * Z) : bool :=
  (a.1 <? b.1) || ((a.1 =? b.1) && (a.2 <? b.2)).

(** Python's [min(iterable, key=...)]: the running minimum is replaced
    only by a strictly smaller key, so the first minimal item wins. *)
Fixpoint min_from (best : soldier_ref) (rest : list soldier_ref) : soldier_ref :=
  match rest with
  | [] => best
  | r :: rest' =>
      min_from (if key_ltb (key r.2) (key best.2) then r else best) rest'
  end.

Definition py_min (candidates : list soldier_ref) : option soldier_ref :=
  match candidates with
  | [] => None
  | r :: rest => Some (min_from r rest)
  end.

(** ** One pass over the slots (app.py, lines 100-153) *)

(** The in-memory state of the slot loop: the loaded soldier objects,
    the ids used today, and the assignments added to the session. *)
Record Pass := {
  all_soldiers : list Soldier.t;
  already_assigned_today : gset Z;
  added : list Assignment.t
}.

(** [best_soldier.total_services += 1] *)
Definition serve (s : Soldier.t) : Soldier.t :=
  Soldier.mk (Soldier.id s) (Soldier.name s) (Soldier.rank s) (Soldier.role s)
             (Soldier.total_services s + 1) (Soldier.is_available s).

(** The body of [for shift_type in slots]. *)
Definition fill_slot (target_date : date) (unavailable_soldier_ids : gset Z)
    (p : Pass) (shift_type : string) : Pass :=
  let candidates :=
    candidates_of unavailable_soldier_ids (already_assigned_today p)
                  shift_type (all_soldiers p) in
  match py_min candidates with
  | None => p
  | Some best_soldier =>
      let assignment :=
        Assignment.mk None (Soldier.id best_soldier.2) target_date
                      shift_type false in
      {| all_soldiers := alter serve best_soldier.1 (all_soldiers p);
         already_assigned_today :=
           already_assigned_today p ∪ {[ Soldier.id best_soldier.2 ]};
         added := added p ++ [assignment] |}
  end.

Definition fill_slots (target_date : date) (unavailable_soldier_ids : gset Z)
    (p : Pass) (shifts : list string) : Pass :=
  foldl (fill_slot target_date unavailable_soldier_ids) p shifts.

Definition start_pass (all_soldiers : list Soldier.t) : Pass :=
  {| all_soldiers := all_soldiers;
     already_assigned_today := ∅;
     added := [] |}.

(** ** The session and its commits *)

(** Which of the run's two [db.session.commit()] calls the store
    accepts: the one after the deletions (line 90) and the final one
    (line 155). A rejected commit raises; the function has no handler,
    so the exception leaves it and the open transaction is discarded. *)
Record Faults := {
  reset_commit_ok : bool;
  final_commit_ok : bool
}.

Definition no_faults : Faults :=
  {| reset_commit_ok := true; final_commit_ok := true |}.

Inductive Outcome :=
  | Returned (value : bool)
  | Raised.

(** What a call leaves behind: how it ended, the messages passed to
    [flash], and the committed contents of the database. *)
Record Run := {
  outcome : Outcome;
  flashed : list (string * string);
  database : Db
}.

(** The rows of a table for one date: [query.filter_by(date=d).all()]. *)
Definition assignments_on (d : date) (db : Db) : list Assignment.t :=
  filter (λ a, Assignment.date a = d) (assignments db).

Definition unavailable_on (d : date) (db : Db) : gset Z :=
  list_to_set
    (Unavailability.soldier_id <$>
       filter (λ u, Unavailability.date u = d) (unavailabilities db)).

Section Generator.

(** [datetime.strptime(s, "%Y-%m-%d").date()] of the Python library,
    [None] standing for [ValueError]. *)
Variable strptime_date : string → option date.

(** The primary key the database gives to a row inserted into the
    assignments table holding the given rows. *)
Variable allocate_id : list Assignment.t → Z.

(** INSERT of one pending assignment. *)
Definition insert_row (table : list Assignment.t) (a : Assignment.t)
  : list Assignment.t :=
  table ++ [Assignment.mk (Some (allocate_id table)) (Assignment.soldier_id a)
                          (Assignment.date a) (Assignment.shift_type a)
                          (Assignment.confirmed a)].

(** [db.session.commit()]: flush the objects marked deleted, the
    pending objects and the loaded soldier objects in one transaction,
    or raise ([None]) and apply nothing. *)
Definition commit (accepted : bool) (db : Db)
    (deleted added : list Assignment.t) (soldier_objects : list Soldier.t)
  : option Db :=
  if accepted then
    Some {| soldiers := soldier_objects;
            assignments :=
              foldl insert_row
                    (filter (λ a, a ∉ deleted) (assignments db)) added;
            unavailabilities := unavailabilities db |}
  else None.

(** Lines 84-90: mark each of the date's assignments deleted and
    commit, only when there are any. *)
Definition reset_date (faults : Faults) (db : Db) (target_date : date)
  : option Db :=
  let existing_assignments := assignments_on target_date db in
  match existing_assignments with
  | [] => Some db
  | _ :: _ =>
      commit (reset_commit_ok faults) db existing_assignments []
             (soldiers db)
  end.

Definition generate_schedule_for_date (faults : Faults) (db : Db)
    (target_date_str : string) : Run :=
  match strptime_date target_date_str with
  | None =>
      {| outcome := Returned false;
         flashed :=
           [(String.append "Invalid date format: " target_date_str,
             "danger")];
         database := db |}
  | Some target_date =>
      match reset_date faults db target_date with
      | None => {| outcome := Raised; flashed := []; database := db |}
      | Some db1 =>
          let unavailable_soldier_ids := unavailable_on target_date db1 in
          (* all_soldiers = Soldier.query.all() *)
          let p :=
            fill_slots target_date unavailable_soldier_ids
                       (start_pass (soldiers db1)) slots in
          match commit (final_commit_ok faults) db1 [] (added p)
                       (all_soldiers p) with
          | None => {| outcome := Raised; flashed := []; database := db1 |}
          | Some db2 =>
              {| outcome := Returned true; flashed := []; database := db2 |}
          end
      end
  end.

End Generator.

(** ** The routes (app.py, lines 176-316) *)

Inductive Method := GET | POST.

(** The part of [flask.request] the views read: the method and the
    submitted form. *)
Record Request := {
  method : Method;
  form : gmap string string
}.

(** What a view function returns: [redirect(url_for(endpoint, ...))],
    a rendered template, or the 404 of [get_or_404]. The context handed
    to a template is not part of the model. *)
Inductive Response :=
  | Redirect (endpoint : string) (date_str : option string)
  | Page (template : string)
  | NotFound.

(** How a request ends: the response ([None] when an exception leaves
    the view), the messages passed to [flash], and the committed
    contents of the database. *)
Record Reply := {
  response : option Response;
  messages : list (string * string);
  stored : Db
}.

(** Python's truth value of a string. *)
Definition nonempty (s : string) : bool :=
  match s with
  | EmptyString => false
  | String _ _ => true
  end.

(** [Soldier.query.get(soldier_id)]: the loaded object and its position
    in the table. *)
Definition get_soldier (soldier_id : Z) (table : list Soldier.t)
  : option (nat * Soldier.t) :=
  list_find (λ s, Soldier.id s = soldier_id) table.

(** [Unavailability.query.get(unavail_id)]. *)
Definition get_unavailability (unavail_id : Z) (table : list Unavailability.t)
  : option (nat * Unavailability.t) :=
  list_find (λ u, Unavailability.id u = unavail_id) table.

(** [assignment.confirmed = True] *)
Definition confirm (a : Assignment.t) : Assignment.t :=
  Assignment.mk (Assignment.id a) (Assignment.soldier_id a)
                (Assignment.date a) (Assignment.shift_type a) true.

Module Routes.
Section Views.

(** The library functions the views call: [strptime] as in the
    generator, [str] of a date, [str.strip] and the [int] that
    [form.get(..., type=int)] applies ([None] standing for
    [ValueError]). *)
Variable strptime_date : string → option date.
Variable isoformat : date → string.
Variable strip : string → string.
Variable to_int : string → option Z.

(** The primary keys the database gives to inserted rows. *)
Variable allocate_id : list Assignment.t → Z.
Variable allocate_soldier_id : list Soldier.t → Z.
Variable allocate_unavailability_id : list Unavailability.t → Z.

(** An exception leaves the view: nothing flashed, nothing committed. *)
Definition raised (db : Db) : Reply :=
  {| response := None; messages := []; stored := db |}.

(** Lines 198-215. Every view takes [accepted], whether the store
    accepts the one commit the view makes. *)
Definition edit_soldier (accepted : bool) (db : Db) (request : Request)
    (soldier_id : Z) : Reply :=
  match get_soldier soldier_id (soldiers db) with
  | None => {| response := Some NotFound; messages := []; stored := db |}
  | Some (i, soldier) =>
      match method request with
      | POST =>
          let rank := strip (default "" (form request !! "rank")) in
          let role := strip (default "" (form request !! "role")) in
          let is_available :=
            bool_decide (form request !! "is_available" = Some "on") in
          let soldier :=
            Soldier.mk (Soldier.id soldier) (Soldier.name soldier) rank role
                       (Soldier.total_services soldier) is_available in
          if nonempty (Soldier.role soldier) then
            if accepted then
              {| response := Some (Redirect "soldiers" None);
                 messages :=
                   [(String.append "Soldier "
                       (String.append (Soldier.name soldier)
                                      " updated successfully!"),
                     "success")];
                 stored :=
                   {| soldiers := <[i := soldier]> (soldiers db);
                      assignments := assignments db;
                      unavailabilities := unavailabilities db |} |}
            else raised db
          else
            {| response := Some (Page "edit_soldier.html");
               messages := [("Role is required.", "danger")];
               stored := db |}
      | GET =>
          {| response := Some (Page "edit_soldier.html");
             messages := [];
             stored := db |}
      end
  end.

(** Lines 218-228. Deleting the soldier object cascades to its
    assignments and unavailabilities (models.py, lines 34-35). *)
Definition delete_soldier (accepted : bool) (db : Db) (soldier_id : Z)
  : Reply :=
  match get_soldier soldier_id (soldiers db) with
  | None => {| response := Some NotFound; messages := []; stored := db |}
  | Some (i, soldier) =>
      let name := Soldier.name soldier in
      if accepted then
        {| response := Some (Redirect "soldiers" None);
           messages :=
             [(String.append "Soldier "
                 (String.append name " deleted successfully!"),
               "success")];
           stored :=
             {| soldiers := delete i (soldiers db);
                assignments :=
                  filter (λ a, Assignment.soldier_id a ≠ Soldier.id soldier)
                         (assignments db);
                unavailabilities :=
                  filter (λ u, Unavailability.soldier_id u ≠ Soldier.id soldier)
                         (unavailabilities db) |} |}
      else raised db
  end.

(** Lines 231-273. *)
Definition unavailability (accepted : bool) (db : Db) (request : Request)
  : Reply :=
  match method request with
  | POST =>
      let action := form request !! "action" in
      if bool_decide (action = Some "add") then
        let soldier_id := form request !! "soldier_id" ≫= to_int in
        let unavail_date := strip (default "" (form request !! "date")) in
        let reason := strip (default "" (form request !! "reason")) in
        match soldier_id with
        | Some soldier_id =>
            if negb (soldier_id =? 0) && nonempty unavail_date
               && nonempty reason then
              match strptime_date unavail_date with
              | Some unavail_date_obj =>
                  let unavail :=
                    Unavailability.mk
                      (allocate_unavailability_id (unavailabilities db))
                      soldier_id unavail_date_obj reason in
                  if accepted then
                    {| response := Some (Redirect "unavailability" None);
                       messages :=
                         [("Unavailability record added successfully!",
                           "success")];
                       stored :=
                         {| soldiers := soldiers db;
                            assignments := assignments db;
                            unavailabilities :=
                              unavailabilities db ++ [unavail] |} |}
                  else raised db
              | None =>
                  {| response := Some (Redirect "unavailability" None);
                     messages := [("Invalid date format.", "danger")];
                     stored := db |}
              end
            else
              {| response := Some (Redirect "unavailability" None);
                 messages := [("Please fill in all fields.", "danger")];
                 stored := db |}
        | None =>
            {| response := Some (Redirect "unavailability" None);
               messages := [("Please fill in all fields.", "danger")];
               stored := db |}
        end
      else if bool_decide (action = Some "delete") then
        let unavail_id := form request !! "unavail_id" ≫= to_int in
        match unavail_id ≫= (λ k, get_unavailability k (unavailabilities db))
        with
        | Some (i, unavail) =>
            if accepted then
              {| response := Some (Redirect "unavailability" None);
                 messages := [("Unavailability record deleted.", "success")];
                 stored :=
                   {| soldiers := soldiers db;
                      assignments := assignments db;
                      unavailabilities := delete i (unavailabilities db) |} |}
            else raised db
        | None =>
            {| response := Some (Redirect "unavailability" None);
               messages := [];
               stored := db |}
        end
      else
        {| response := Some (Redirect "unavailability" None);
           messages := [];
           stored := db |}
  | GET =>
      {| response := Some (Page "unavailability.html");
         messages := [];
         stored := db |}
  end.

(** Lines 290-305. *)
Definition confirm_schedule (accepted : bool) (db : Db) (date_str : string)
  : Reply :=
  match strptime_date date_str with
  | None =>
      {| response := Some (Redirect "dashboard" None);
         messages := [("Invalid date format.", "danger")];
         stored := db |}
  | Some target_date =>
      if accepted then
        {| response := Some (Redirect "schedule" (Some date_str));
           messages :=
             [(String.append "All assignments for "
                 (String.append (isoformat target_date) " confirmed!"),
               "success")];
           stored :=
             {| soldiers := soldiers db;
                assignments :=
                  (λ assignment,
                     if decide (Assignment.date assignment = target_date)
                     then confirm assignment else assignment)
                    <$> assignments db;
                unavailabilities := unavailabilities db |} |}
      else raised db
  end.

(** Lines 308-316: the caller of the generator. *)
Definition generate (faults : Faults) (db : Db) (date_str : string) : Reply :=
  let run :=
    generate_schedule_for_date strptime_date allocate_id faults db date_str in
  match outcome run with
  | Returned true =>
      {| response := Some (Redirect "schedule" (Some date_str));
         messages :=
           flashed run ++
           [(String.append "Schedule generated for "
               (String.append date_str "!"),
             "success")];
         stored := database run |}
  | Returned false =>
      {| response := Some (Redirect "schedule" (Some date_str));
         messages :=
           flashed run ++
           [(String.append "Failed to generate schedule for "
               (String.append date_str "."),
             "danger")];
         stored := database run |}
  | Raised =>
      {| response := None; messages := flashed run; stored := database run |}
  end.

(** Lines 176-195. A new row gets the column defaults of models.py:
    [total_services = 0]. *)
Definition soldiers (accepted : bool) (db : Db) (request : Request) : Reply :=
  match method request with
  | POST =>
      let name := strip (default "" (form request !! "name")) in
      let rank := strip (default "" (form request !! "rank")) in
      let role := strip (default "" (form request !! "role")) in
      let is_available :=
        bool_decide (form request !! "is_available" = Some "on") in
      if nonempty name && nonempty role then
        let soldier :=
          Soldier.mk (allocate_soldier_id (soldiers db)) name rank role 0
                     is_available in
        if accepted then
          {| response := Some (Redirect "soldiers" None);
             messages :=
               [(String.append "Soldier "
                   (String.append name " added successfully!"),
                 "success")];
             stored :=
               {| soldiers := soldiers db ++ [soldier];
                  assignments := assignments db;
                  unavailabilities := unavailabilities db |} |}
        else raised db
      else
        {| response := Some (Page "soldiers.html");
           messages := [("Name and role are required.", "danger")];
           stored := db |}
  | GET =>
      {| response := Some (Page "soldiers.html");
         messages := [];
         stored := db |}
  end.

End Views.
End Routes.

(** ** Concrete collaborators, to run the model *)

(** SQLite's rowid for an [INTEGER PRIMARY KEY] column: one more than
    the largest key in the table. *)
Definition rowid_after (table : list Assignment.t) : Z :=
  1 + foldr (λ a m, Z.max (default 0 (Assignment.id a)) m) 0 table.

Definition digit (c : ascii) : option Z :=
  let n := Z.of_N (N_of_ascii c) in
  if (48 <=? n) && (n <=? 57) then Some (n - 48) else None.

Definition is_leap (y : Z) : bool :=
  ((y mod 4 =? 0) && negb (y mod 100 =? 0)) || (y mod 400 =? 0).

Definition days_in_month (y m : Z) : Z :=
  if m =? 2 then (if is_leap y then 29 else 28)
  else if (m =? 4) || (m =? 6) || (m =? 9) || (m =? 11) then 30
  else 31.

(** A parser for the zero-padded dates [YYYY-MM-DD] of the proleptic
    Gregorian calendar, years 1 to 9999. *)
Definition iso_date (s : string) : option date :=
  match s with
  | String y1 (String y2 (String y3 (String y4 (String "-"%char
      (String m1 (String m2 (String "-"%char
        (String d1 (String d2 EmptyString))))))))) =>
      y1 ← digit y1; y2 ← digit y2; y3 ← digit y3; y4 ← digit y4;
      m1 ← digit m1; m2 ← digit m2; d1 ← digit d1; d2 ← digit d2;
      let y := 1000 * y1 + 100 * y2 + 10 * y3 + y4 in
      let m := 10 * m1 + m2 in
      let d := 10 * d1 + d2 in
      if (1 <=? y) && (1 <=? m) && (m <=? 12) && (1 <=? d)
         && (d <=? days_in_month y m)
      then Some (Date y m d) else None
  | _ => None
  end.

Definition generate : Faults → Db → string → Run :=
  generate_schedule_for_date iso_date rowid_after.

(** ** Vocabulary of the properties *)

(** The lexicographic order on sort keys. *)
Definition key_le (a b : Z * Z) : Prop :=
  a.1 < b.1 ∨ (a.1 = b.1 ∧ a.2 ≤ b.2).

(** What one added assignment records about the soldier object at
    position [i] of the roster [l0] the pass started from. *)
Definition picked_for (d : date) (U : gset Z) (l0 : list Soldier.t)
    (a : Assignment.t) (i : nat) : Prop :=
  ∃ s0, l0 !! i = Some s0 ∧
        a = Assignment.mk None (Soldier.id s0) d
                          (Assignment.shift_type a) false ∧
        is_candidate U ∅ (Assignment.shift_type a) s0 = true.

(** The loop invariant of the pass over the slots: [seen] are the
    slots processed so far and [picked] the positions of the soldier
    objects chosen for them, in order. *)
Record pass_inv (d : date) (U : gset Z) (l0 : list Soldier.t)
    (seen : list string) (picked : list nat) (p : Pass) : Prop := {
  inv_soldiers : ∀ i,
    all_soldiers p !! i =
    (λ s, if bool_decide (i ∈ picked) then serve s else s) <$> l0 !! i;
  inv_picked : NoDup picked;
  inv_added : Forall2 (picked_for d U l0) (added p) picked;
  inv_already :
    already_assigned_today p =
    list_to_set (Assignment.soldier_id <$> added p);
  inv_ids : NoDup (Assignment.soldier_id <$> added p);
  inv_shifts : (Assignment.shift_type <$> added p) `sublist_of` seen
}.

(** The fields of a row with the primary key unset. *)
Definition pending (a : Assignment.t) : Assignment.t :=
  Assignment.mk None (Assignment.soldier_id a) (Assignment.date a)
                (Assignment.shift_type a) (Assignment.confirmed a).

(** The database with the assignments of date [d] deleted. *)
Definition without_date (d : date) (db : Db) : Db :=
  {| soldiers := soldiers db;
     assignments := filter (λ a, Assignment.date a ≠ d) (assignments db);
     unavailabilities := unavailabilities db |}.

(** The pass the generator makes over the fixed slots for date [d]. *)
Definition pass_of (d : date) (db : Db) : Pass :=
  fill_slots d (unavailable_on d db) (start_pass (soldiers db)) slots.

(** Whether the reset of lines 84-90 goes through: there is nothing to
    delete, or the store accepts the commit of the deletions. *)
Definition reset_goes_through (faults : Faults) (d : date) (db : Db) : bool :=
  bool_decide (assignments_on d db = []) || reset_commit_ok faults.

(** The database after a run for date [d] whose commits were both
    accepted: the date's rows replaced by the rows of the pass, the
    soldier objects written back. *)
Definition applied (allocate_id : list Assignment.t → Z) (d : date) (db : Db)
  : Db :=
  {| soldiers := all_soldiers (pass_of d db);
     assignments :=
       foldl (insert_row allocate_id) (assignments (without_date d db))
             (added (pass_of d db));
     unavailabilities := unavailabilities db |}.

(** The positions of the soldier objects whose [total_services]
    differs between two states of the roster. *)
Definition incremented (before after : list Soldier.t) : list nat :=
  filter
    (λ i, Soldier.total_services <$> after !! i ≠
          Soldier.total_services <$> before !! i)
    (seq 0 (length before)).

(** The primary keys of the soldiers at the given positions. *)
Definition ids_at (l : list Soldier.t) (positions : list nat) : list Z :=
  omap (λ i, Soldier.id <$> l !! i) positions.

(** The candidate pool of a slot at the moment the pass reaches it,
    the slots [before] having been processed. *)
Definition pool_when_reached (d : date) (db : Db) (before : list string)
    (shift_type : string) : list soldier_ref :=
  let p :=
    fill_slots d (unavailable_on d db) (start_pass (soldiers db)) before in
  candidates_of (unavailable_on d db) (already_assigned_today p)
                shift_type (all_soldiers p).

(** The keyword at which the scan of [scan_keywords] stops: the first
    one, in list order, that the slot label contains. *)
Definition first_keyword (keywords : list string) (shift_type : string)
  : option string :=
  List.find (λ keyword, contains keyword shift_type) keywords.

(** Two states of the pass that differ only in the order of the
    loaded soldier objects. *)
Definition pass_equiv (p1 p2 : Pass) : Prop :=
  all_soldiers p1 ≡ₚ all_soldiers p2 ∧
  already_assigned_today p1 = already_assigned_today p2 ∧
  added p1 = added p2.

(** The sum of the fairness counters of a roster. *)
Definition services (l : list Soldier.t) : Z :=
  foldr (λ s n, Soldier.total_services s + n) 0 l.

(** Referential integrity: every assignment and every unavailability
    record refers to a soldier of the roster. *)
Definition references_ok (db : Db) : Prop :=
  (∀ a, a ∈ assignments db →
        Assignment.soldier_id a ∈ Soldier.id <$> soldiers db) ∧
  (∀ u, u ∈ unavailabilities db →
        Unavailability.soldier_id u ∈ Soldier.id <$> soldiers db).

(** The date has an assignment for the slot. *)
Definition filled (d : date) (db : Db) (shift_type : string) : Prop :=
  ∃ a, a ∈ assignments_on d db ∧ Assignment.shift_type a = shift_type.

(** The view ended by flashing a message of category [success]. *)
Definition succeeded (reply : Reply) : Prop :=
  ∃ text, last (messages reply) = Some (text, "success").

(** Closes the roster part of a frame goal from [Hsame], the fact that
    a roster is related to itself with no counter changed. *)
Ltac roster_untouched Hsame :=
  let H := fresh "H" in
  let Hne := fresh "Hne" in
  eapply Forall2_impl; [exact Hsame|];
  simpl; intros ? ? H; split_and!; try apply H;
  intros Hne; by apply H in Hne as [_ []].

(** ** Sample data *)

Definition jan15 : date := Date 2024 1 15.
Definition jan14 : date := Date 2024 1 14.

Definition alpha : Soldier.t :=
  Soldier.mk 1 "A" "Στρατιώτης" "Σκοπιά" 3 true.
Definition bravo : Soldier.t :=
  Soldier.mk 2 "B" "Στρατιώτης" "Σκοπιά" 1 true.
Definition charlie : Soldier.t :=
  Soldier.mk 3 "C" "Δεκανέας" "Κουζίνα" 0 true.
Definition delta : Soldier.t :=
  Soldier.mk 4 "D" "Στρατιώτης" "Θαλαμοφύλακας" 0 false.

(** The roster of the specification's scenario. *)
Definition duo : Db :=
  {| soldiers := [alpha; bravo]; assignments := []; unavailabilities := [] |}.

Definition duo_bravo_away : Db :=
  {| soldiers := [alpha; bravo];
     assignments := [];
     unavailabilities := [Unavailability.mk 1 2 jan15 "Άδεια"] |}.

(** A unit with a schedule for the 14th and the 15th already stored,
    and one soldier on leave on the 15th. *)
Definition unit_db : Db :=
  {| soldiers := [alpha; bravo; charlie; delta];
     assignments :=
       [ Assignment.mk (Some 1) 1 jan14 "Σκοπιά 00:00-02:00" true;
         Assignment.mk (Some 2) 2 jan15 "Σκοπιά 00:00-02:00" false;
         Assignment.mk (Some 3) 3 jan15 "Κουζίνα Πρωί" false ];
     unavailabilities :=
       [ Unavailability.mk 1 2 jan15 "Άδεια";
         Unavailability.mk 2 3 jan14 "Υγεία" ] |}.

(** The same unit with the soldier rows and the unavailability rows in
    another order. *)
Definition unit_db_shuffled : Db :=
  {| soldiers := [delta; charlie; bravo; alpha];
     assignments := assignments unit_db;
     unavailabilities :=
       [ Unavailability.mk 2 3 jan14 "Υγεία";
         Unavailability.mk 1 2 jan15 "Άδεια" ] |}.

(** A store that accepts the deletions and rejects the final commit. *)
Definition final_commit_rejected : Faults :=
  {| reset_commit_ok := true; final_commit_ok := false |}.

(** ** Concrete collaborators of the views *)

Definition is_space (c : ascii) : bool :=
  let n := Z.of_N (N_of_ascii c) in
  ((9 <=? n) && (n <=? 13)) || (n =? 32).

Fixpoint lstrip (s : string) : string :=
  match s with
  | EmptyString => EmptyString
  | String c s' => if is_space c then lstrip s' else s
  end.

(** [str.strip] on ASCII white space. *)
Definition strip_ascii (s : string) : string :=
  String.rev (lstrip (String.rev (lstrip s))).

Fixpoint digits_value (acc : Z) (s : string) : option Z :=
  match s with
  | EmptyString => Some acc
  | String c s' => d ← digit c; digits_value (10 * acc + d) s'
  end.

(** [int] on a non-empty string of decimal digits. *)
Definition int_of_digits (s : string) : option Z :=
  if nonempty s then digits_value 0 s else None.

Fixpoint zero_padded (width : nat) (n : Z) : string :=
  match width with
  | O => EmptyString
  | S w =>
      String.append (zero_padded w (n / 10))
        (String (ascii_of_N (Z.to_N (48 + n mod 10))) EmptyString)
  end.

(** [str] of a date: [YYYY-MM-DD]. *)
Definition iso_string (d : date) : string :=
  String.append (zero_padded 4 (year d))
    (String.append "-"
       (String.append (zero_padded 2 (month d))
          (String.append "-" (zero_padded 2 (day d))))).

Definition next_soldier_id (table : list Soldier.t) : Z :=
  1 + foldr (λ s m, Z.max (Soldier.id s) m) 0 table.

Definition next_unavailability_id (table : list Unavailability.t) : Z :=
  1 + foldr (λ u m, Z.max (Unavailability.id u) m) 0 table.

(** A form that reports soldier 1 on leave on the 15th. *)
Definition leave_request : Request :=
  {| method := POST;
     form :=
       list_to_map
         [ ("action", "add"); ("soldier_id", "1");
           ("date", " 2024-01-15 "); ("reason", "Άδεια") ] |}.

(** A form that withdraws unavailability record 3. *)
Definition withdraw_request : Request :=
  {| method := POST;
     form := list_to_map [ ("action", "delete"); ("unavail_id", "3") ] |}.

(** A form that enrols a new soldier. *)
Definition enrol_request : Request :=
  {| method := POST;
     form :=
       list_to_map
         [ ("name", " Ε "); ("rank", "Στρατιώτης"); ("role", "Σκοπιά");
           ("is_available", "on") ] |}.

(** The views with the concrete collaborators. *)
Definition confirm_view : bool → Db → string → Reply :=
  Routes.confirm_schedule iso_date iso_string.

Definition unavailability_view : bool → Db → Request → Reply :=
  Routes.unavailability iso_date strip_ascii int_of_digits
                        next_unavailability_id.

Definition soldiers_view : bool → Db → Request → Reply :=
  Routes.soldiers strip_ascii next_soldier_id.

Definition edit_view : bool → Db → Request → Z → Reply :=
  Routes.edit_soldier strip_ascii.

(** * Properties *)

(** ** Selection *)

Lemma key_ltb_false a b : key_ltb a b = false ↔ key_le b a.
Proof. unfold key_ltb, key_le. destruct a, b; simpl. lia. Qed.

Lemma key_le_refl a : key_le a a.
Proof. unfold key_le. lia. Qed.

Lemma key_le_trans a b c : key_le a b → key_le b c → key_le a c.
Proof. unfold key_le. lia. Qed.

Lemma key_le_antisym a b : key_le a b → key_le b a → a = b.
Proof. unfold key_le. destruct a, b; simpl. intros. f_equal; lia. Qed.

Lemma min_from_elem best rest : min_from best rest ∈ best :: rest.
Proof.
  revert best. induction rest as [|r rest IH]; intros best; simpl.
  - apply elem_of_cons. by left.
  - destruct (key_ltb (key r.2) (key best.2)).
    + apply elem_of_cons. right. apply IH.
    + specialize (IH best). rewrite !elem_of_cons in *. tauto.
Qed.

Lemma min_from_le_best best rest :
  key_le (key (min_from best rest).2) (key best.2).
Proof.
  revert best. induction rest as [|r rest IH]; intros best; simpl.
  - apply key_le_refl.
  - destruct (key_ltb (key r.2) (key best.2)) eqn:E; [|apply IH].
    eapply key_le_trans; [apply IH|].
    unfold key_ltb, key_le in *. lia.
Qed.

Lemma min_from_least best rest r :
  r ∈ best :: rest → key_le (key (min_from best rest).2) (key r.2).
Proof.
  revert best. induction rest as [|x rest IH]; intros best Hr; simpl.
  - apply list_elem_of_singleton in Hr as ->. apply key_le_refl.
  - apply elem_of_cons in Hr as [->|Hr].
    + eapply key_le_trans; [apply min_from_le_best|].
      destruct (key_ltb (key x.2) (key best.2)) eqn:E; [|apply key_le_refl].
      unfold key_ltb, key_le in *. lia.
    + apply elem_of_cons in Hr as [->|Hr].
      * eapply key_le_trans; [apply min_from_le_best|].
        destruct (key_ltb (key x.2) (key best.2)) eqn:E; [apply key_le_refl|].
        by apply key_ltb_false.
      * apply IH. set_solver.
Qed.

Lemma py_min_None candidates : py_min candidates = None ↔ candidates = [].
Proof. by destruct candidates. Qed.

Lemma py_min_Some candidates best :
  py_min candidates = Some best →
  best ∈ candidates ∧ ∀ r, r ∈ candidates → key_le (key best.2) (key r.2).
Proof.
  destruct candidates as [|r0 rest]; [done|]. intros [= <-]. split.
  - apply min_from_elem.
  - intros r Hr. by apply min_from_least.
Qed.

(** ** Candidate pool *)

Lemma candidates_of_elem U A shift_type l i s :
  (i, s) ∈ candidates_of U A shift_type l ↔
  l !! i = Some s ∧ is_candidate U A shift_type s = true.
Proof.
  unfold candidates_of. rewrite list_elem_of_filter, elem_of_lookup_imap.
  simpl. split.
  - intros [Hc (j & x & [= -> ->] & Hl)]. done.
  - intros [Hl Hc]. eauto.
Qed.

Lemma candidates_of_soldiers U A shift_type l :
  (candidates_of U A shift_type l).*2 =
  filter (λ s, is_candidate U A shift_type s = true) l.
Proof.
  unfold candidates_of.
  assert (∀ f : nat → Soldier.t → soldier_ref, (∀ i x, (f i x).2 = x) →
    (filter (λ r : soldier_ref, is_candidate U A shift_type r.2 = true)
            (imap f l)).*2 =
    filter (λ s, is_candidate U A shift_type s = true) l) as Hgen.
  { induction l as [|x l IH]; intros f Hf; [done|].
    rewrite imap_cons, !filter_cons, Hf.
    case_decide; simpl; rewrite IH; try done;
      try (intros i y; apply Hf). by rewrite Hf. }
  by apply Hgen.
Qed.

Lemma is_candidate_true U A shift_type s :
  is_candidate U A shift_type s = true ↔
  Soldier.is_available s = true ∧ (Soldier.id s ∉ U) ∧ (Soldier.id s ∉ A) ∧
  ((scan_keywords role_keywords shift_type (Soldier.role s)).1 = true →
   (scan_keywords role_keywords shift_type (Soldier.role s)).2 = true).
Proof.
  unfold is_candidate.
  destruct (scan_keywords role_keywords shift_type (Soldier.role s))
    as [has matching].
  destruct (Soldier.is_available s); simpl; [|intuition discriminate].
  case_bool_decide; [intuition discriminate|].
  case_bool_decide; [intuition discriminate|].
  destruct has, matching; simpl; intuition discriminate.
Qed.

Lemma is_candidate_unused U A shift_type s :
  is_candidate U A shift_type s = true → is_candidate U ∅ shift_type s = true.
Proof.
  rewrite !is_candidate_true. intros (? & ? & ? & ?).
  split_and!; first [done | apply not_elem_of_empty].
Qed.

Lemma scan_keywords_first keywords shift_type role :
  scan_keywords keywords shift_type role =
  match first_keyword keywords shift_type with
  | Some keyword => (true, contains keyword role)
  | None => (false, false)
  end.
Proof.
  unfold first_keyword. induction keywords as [|keyword rest IH]; [done|].
  simpl. by destruct (contains keyword shift_type).
Qed.

Lemma first_keyword_none keywords shift_type :
  (∀ keyword, keyword ∈ keywords → contains keyword shift_type = false) →
  first_keyword keywords shift_type = None.
Proof.
  unfold first_keyword. induction keywords as [|keyword rest IH]; [done|].
  intros Hno. simpl. rewrite Hno by (apply elem_of_cons; by left).
  apply IH. intros k Hk. apply Hno, elem_of_cons. by right.
Qed.

(** Each fixed slot names exactly one keyword. *)
Lemma first_keyword_slots shift_type keyword :
  shift_type ∈ slots → keyword ∈ role_keywords →
  contains keyword shift_type = true →
  first_keyword role_keywords shift_type = Some keyword.
Proof.
  unfold slots, role_keywords. rewrite !elem_of_cons, !elem_of_nil.
  intros Hs Hk.
  repeat (destruct Hs as [->|Hs]); try done;
    repeat (destruct Hk as [->|Hk]); try done;
    vm_compute; congruence.
Qed.

Lemma candidates_of_elem_keyword U A shift_type l i s :
  (i, s) ∈ candidates_of U A shift_type l ↔
  l !! i = Some s ∧ Soldier.is_available s = true ∧
  (Soldier.id s ∉ U) ∧ (Soldier.id s ∉ A) ∧
  match first_keyword role_keywords shift_type with
  | Some keyword => contains keyword (Soldier.role s) = true
  | None => True
  end.
Proof.
  rewrite candidates_of_elem, is_candidate_true, scan_keywords_first.
  destruct (first_keyword role_keywords shift_type); simpl; tauto.
Qed.

(** C4: for each of the fixed slots, a soldier is in the candidate
    pool exactly when it is loaded, available, not unavailable on the
    date, not yet used, and its role contains the keyword the slot
    label contains; for a label that contains none of the keywords the
    role is not looked at. For any label at all, the role test is on
    the first keyword of the list that the label contains. *)
Theorem role_compatibility U A shift_type (l : list Soldier.t) i s :
  (shift_type ∈ slots →
   ∀ keyword, keyword ∈ role_keywords →
     contains keyword shift_type = true →
     ((i, s) ∈ candidates_of U A shift_type l ↔
      l !! i = Some s ∧ Soldier.is_available s = true ∧
      (Soldier.id s ∉ U) ∧ (Soldier.id s ∉ A) ∧
      contains keyword (Soldier.role s) = true)) ∧
  ((∀ keyword, keyword ∈ role_keywords →
      contains keyword shift_type = false) →
   ((i, s) ∈ candidates_of U A shift_type l ↔
    l !! i = Some s ∧ Soldier.is_available s = true ∧
    (Soldier.id s ∉ U) ∧ (Soldier.id s ∉ A))) ∧
  ((i, s) ∈ candidates_of U A shift_type l ↔
   l !! i = Some s ∧ Soldier.is_available s = true ∧
   (Soldier.id s ∉ U) ∧ (Soldier.id s ∉ A) ∧
   match first_keyword role_keywords shift_type with
   | Some keyword => contains keyword (Soldier.role s) = true
   | None => True
   end).
Proof.
  split_and!.
  - intros Hslot keyword Hk Hc. rewrite candidates_of_elem_keyword.
    by rewrite (first_keyword_slots _ _ Hslot Hk Hc).
  - intros Hno. rewrite candidates_of_elem_keyword.
    rewrite (first_keyword_none _ _ Hno). tauto.
  - apply candidates_of_elem_keyword.
Qed.

(** ** The pass over the slots *)

Lemma fill_slot_cases d U p shift_type :
  (candidates_of U (already_assigned_today p) shift_type (all_soldiers p) = [] ∧
   fill_slot d U p shift_type = p) ∨
  (∃ i s,
     (i, s) ∈ candidates_of U (already_assigned_today p) shift_type
                            (all_soldiers p) ∧
     (∀ r, r ∈ candidates_of U (already_assigned_today p) shift_type
                             (all_soldiers p) →
           key_le (key s) (key r.2)) ∧
     fill_slot d U p shift_type =
     {| all_soldiers := alter serve i (all_soldiers p);
        already_assigned_today :=
          already_assigned_today p ∪ {[ Soldier.id s ]};
        added := added p ++
                 [Assignment.mk None (Soldier.id s) d shift_type false] |}).
Proof.
  unfold fill_slot.
  destruct (py_min _) as [[i s]|] eqn:E.
  - right. exists i, s. apply py_min_Some in E as [Hin Hmin]. done.
  - left. by apply py_min_None in E.
Qed.

(** C3: when the candidate pool of a slot is not empty, the chosen
    soldier is a candidate with the least [total_services], and the
    least id among the candidates with that count; its counter goes up
    by exactly one, no other soldier object changes, and one assignment
    for it is added with [confirmed = false]. *)
Theorem fill_slot_selects d U p shift_type :
  candidates_of U (already_assigned_today p) shift_type (all_soldiers p)
    ≠ [] →
  ∃ i best,
    (i, best) ∈ candidates_of U (already_assigned_today p) shift_type
                               (all_soldiers p) ∧
    (∀ r, r ∈ candidates_of U (already_assigned_today p) shift_type
                            (all_soldiers p) →
          Soldier.total_services best ≤ Soldier.total_services r.2 ∧
          (Soldier.total_services r.2 = Soldier.total_services best →
           Soldier.id best ≤ Soldier.id r.2)) ∧
    all_soldiers (fill_slot d U p shift_type) !! i =
      Some (Soldier.mk (Soldier.id best) (Soldier.name best)
                       (Soldier.rank best) (Soldier.role best)
                       (Soldier.total_services best + 1)
                       (Soldier.is_available best)) ∧
    (∀ j, j ≠ i →
          all_soldiers (fill_slot d U p shift_type) !! j =
          all_soldiers p !! j) ∧
    added (fill_slot d U p shift_type) =
      added p ++ [Assignment.mk None (Soldier.id best) d shift_type false].
Proof.
  intros Hpool.
  destruct (fill_slot_cases d U p shift_type)
    as [[Hnil _]|(i & best & Hin & Hmin & ->)]; [done|].
  exists i, best. simpl. split_and!; [done| | | |done].
  - intros r Hr. specialize (Hmin r Hr). unfold key_le, key in Hmin.
    simpl in Hmin. lia.
  - apply candidates_of_elem in Hin as [Hi _].
    by rewrite list_lookup_alter_eq, Hi.
  - intros j Hj. by apply list_lookup_alter_ne.
Qed.

Lemma pass_inv_start d U l0 : pass_inv d U l0 [] [] (start_pass l0).
Proof.
  split; simpl.
  - intros i. by destruct (l0 !! i).
  - constructor.
  - constructor.
  - done.
  - constructor.
  - done.
Qed.

Lemma pass_inv_step d U l0 seen picked p shift_type :
  pass_inv d U l0 seen picked p →
  ∃ picked',
    pass_inv d U l0 (seen ++ [shift_type]) picked'
             (fill_slot d U p shift_type).
Proof.
  intros [Hs Hp Ha Hal Hid Hsh].
  destruct (fill_slot_cases d U p shift_type)
    as [[_ ->]|(i & s & Hin & _ & ->)].
  { exists picked. split; try done. by apply sublist_inserts_r. }
  apply candidates_of_elem in Hin as [Hi Hc].
  pose proof Hc as Hc'. apply is_candidate_true in Hc' as (_ & _ & Hfresh & _).
  rewrite Hs in Hi. destruct (l0 !! i) as [s0|] eqn:Hl0; [|done].
  simpl in Hi.
  assert (Soldier.id s = Soldier.id s0) as Hid0.
  { injection Hi as <-. by case_bool_decide. }
  assert (i ∉ picked) as Hnew.
  { intros Hi'. apply list_elem_of_lookup in Hi' as [k Hk].
    destruct (Forall2_lookup_r _ _ _ _ _ Ha Hk) as (a & Hak & s0' & Hl & Hea & _).
    apply Hfresh. rewrite Hal, elem_of_list_to_set, list_elem_of_fmap.
    exists a. split; [|by eapply list_elem_of_lookup_2].
    rewrite Hea. simpl. congruence. }
  rewrite bool_decide_eq_false_2 in Hi by done. injection Hi as ->.
  exists (picked ++ [i]). split; simpl.
  - intros j. rewrite list_lookup_alter.
    destruct (decide (i = j)) as [<-|Hne]; rewrite Hs.
    + rewrite Hl0. simpl.
      rewrite bool_decide_eq_false_2 by done.
      rewrite bool_decide_eq_true_2; [done|].
      apply elem_of_app. right. by apply list_elem_of_singleton.
    + destruct (l0 !! j); simpl; [|done]. f_equal.
      rewrite (bool_decide_ext (j ∈ picked ++ [i]) (j ∈ picked)); [done|].
      rewrite elem_of_app, list_elem_of_singleton. intuition congruence.
  - apply NoDup_app. split_and!; [done| |apply NoDup_singleton].
    intros j Hj ->%list_elem_of_singleton. done.
  - apply Forall2_app; [done|]. constructor; [|constructor].
    exists s. split_and!; [done|done|]. simpl. by eapply is_candidate_unused.
  - rewrite fmap_app, list_to_set_app_L, Hal. simpl.
    by rewrite union_empty_r_L.
  - rewrite fmap_app. apply NoDup_app. split_and!; [done| |apply NoDup_singleton].
    intros x Hx ->%list_elem_of_singleton. simpl in *.
    apply Hfresh. by rewrite Hal, elem_of_list_to_set.
  - rewrite fmap_app. by apply sublist_app.
Qed.

Lemma pass_inv_fill_slots d U l0 shifts : ∀ seen picked p,
  pass_inv d U l0 seen picked p →
  ∃ picked',
    pass_inv d U l0 (seen ++ shifts) picked' (fill_slots d U p shifts).
Proof.
  induction shifts as [|shift_type shifts IH]; intros seen picked p Hinv.
  - exists picked. by rewrite app_nil_r.
  - destruct (pass_inv_step d U l0 seen picked p shift_type Hinv)
      as [picked1 H1].
    destruct (IH _ _ _ H1) as [picked2 H2].
    exists picked2. by rewrite <- app_assoc in H2.
Qed.

Lemma pass_inv_of d db :
  ∃ picked, pass_inv d (unavailable_on d db) (soldiers db) slots picked
                     (pass_of d db).
Proof.
  apply (pass_inv_fill_slots d _ (soldiers db) slots [] [] _
           (pass_inv_start _ _ _)).
Qed.

Lemma fill_slots_app d U p shifts1 shifts2 :
  fill_slots d U p (shifts1 ++ shifts2) =
  fill_slots d U (fill_slots d U p shifts1) shifts2.
Proof. unfold fill_slots. apply foldl_app. Qed.

Lemma fill_slot_added d U p shift_type :
  added p `prefix_of` added (fill_slot d U p shift_type).
Proof.
  destruct (fill_slot_cases d U p shift_type)
    as [[_ ->]|(i & s & _ & _ & ->)]; [done|].
  simpl. by apply prefix_app_r.
Qed.

Lemma fill_slots_added d U shifts : ∀ p,
  added p `prefix_of` added (fill_slots d U p shifts).
Proof.
  induction shifts as [|shift_type shifts IH]; intros p; [done|].
  simpl. etrans; [apply fill_slot_added|apply IH].
Qed.

Lemma added_shape d U l0 seen picked p a :
  pass_inv d U l0 seen picked p → a ∈ added p →
  a = Assignment.mk None (Assignment.soldier_id a) d
                    (Assignment.shift_type a) false.
Proof.
  intros Hinv Ha. apply list_elem_of_lookup in Ha as [k Hk].
  destruct (Forall2_lookup_l _ _ _ _ _ (inv_added _ _ _ _ _ _ Hinv) Hk)
    as (i & _ & s0 & _ & Hea & _).
  rewrite Hea at 1. f_equal. by rewrite Hea.
Qed.

Lemma added_date d U l0 seen picked p a :
  pass_inv d U l0 seen picked p → a ∈ added p → Assignment.date a = d.
Proof. intros Hinv Ha. by rewrite (added_shape _ _ _ _ _ _ _ Hinv Ha). Qed.

Lemma added_pending d U l0 seen picked p :
  pass_inv d U l0 seen picked p → pending <$> added p = added p.
Proof.
  intros Hinv. rewrite <- (list_fmap_id (added p)) at 2.
  apply list_fmap_ext. intros k a Hk.
  apply list_elem_of_lookup_2 in Hk.
  pose proof (added_shape _ _ _ _ _ _ _ Hinv Hk) as E.
  destruct a as [ai asid ad ash ac]; simpl in *.
  by injection E as -> -> ->.
Qed.

Lemma filter_Forall {A} (P : A → Prop) `{∀ x, Decision (P x)} (l : list A) :
  Forall P l → filter P l = l.
Proof.
  induction 1 as [|x l Hx _ IH]; [done|].
  by rewrite filter_cons_True, IH.
Qed.

Lemma filter_none {A} (P : A → Prop) `{∀ x, Decision (P x)} (l : list A) :
  Forall (λ x, ¬ P x) l → filter P l = [].
Proof.
  induction 1 as [|x l Hx _ IH]; [done|].
  by rewrite filter_cons_False, IH.
Qed.

Lemma fmap_of_pending {B} (f : Assignment.t → B) (new added : list Assignment.t) :
  (∀ a, f (pending a) = f a) → pending <$> new = added →
  f <$> new = f <$> added.
Proof.
  intros Hf <-. rewrite <- list_fmap_compose.
  apply list_fmap_ext. intros k a _. simpl. by rewrite Hf.
Qed.

Lemma fill_slots_covers d U p0 before shift_type after :
  candidates_of U (already_assigned_today (fill_slots d U p0 before))
                shift_type (all_soldiers (fill_slots d U p0 before)) ≠ [] →
  ∃ a, a ∈ added (fill_slots d U p0 (before ++ shift_type :: after)) ∧
       Assignment.shift_type a = shift_type.
Proof.
  intros Hpool. rewrite fill_slots_app. simpl.
  set (p := fill_slots d U p0 before) in *.
  destruct (fill_slot_cases d U p shift_type)
    as [[Hnil _]|(i & s & _ & _ & Hstep)]; [done|].
  exists (Assignment.mk None (Soldier.id s) d shift_type false).
  split; [|done].
  eapply elem_of_prefix; [|apply fill_slots_added].
  rewrite Hstep. simpl. apply elem_of_app. right.
  by apply list_elem_of_singleton.
Qed.

Lemma slots_NoDup : NoDup slots.
Proof. apply (bool_decide_unpack _). by vm_compute. Qed.

Lemma picked_lookup d U l0 seen picked p i :
  pass_inv d U l0 seen picked p → i ∈ picked → is_Some (l0 !! i).
Proof.
  intros Hinv Hi. apply list_elem_of_lookup in Hi as [k Hk].
  destruct (Forall2_lookup_r _ _ _ _ _ (inv_added _ _ _ _ _ _ Hinv) Hk)
    as (a & _ & s0 & Hl & _). by exists s0.
Qed.

Lemma incremented_elem d U l0 seen picked p i :
  pass_inv d U l0 seen picked p →
  i ∈ incremented l0 (all_soldiers p) ↔ i ∈ picked.
Proof.
  intros Hinv. unfold incremented.
  rewrite list_elem_of_filter, elem_of_seq, (inv_soldiers _ _ _ _ _ _ Hinv).
  split.
  - intros [Hne _]. destruct (l0 !! i) as [s0|]; [|done]. simpl in Hne.
    destruct (decide (i ∈ picked)) as [|Hn]; [done|].
    by rewrite bool_decide_eq_false_2 in Hne.
  - intros Hi. destruct (picked_lookup _ _ _ _ _ _ _ Hinv Hi) as [s0 Hs0].
    split; [|apply lookup_lt_Some in Hs0; lia].
    rewrite Hs0. simpl. rewrite bool_decide_eq_true_2 by done.
    simpl. intros [=]. lia.
Qed.

Lemma incremented_picked d U l0 seen picked p :
  pass_inv d U l0 seen picked p →
  incremented l0 (all_soldiers p) ≡ₚ picked.
Proof.
  intros Hinv. apply NoDup_Permutation.
  - apply NoDup_filter, NoDup_seq.
  - apply (inv_picked _ _ _ _ _ _ Hinv).
  - intros i. by eapply incremented_elem.
Qed.

Lemma ids_at_picked d U l0 seen picked p :
  pass_inv d U l0 seen picked p →
  ids_at l0 picked = Assignment.soldier_id <$> added p.
Proof.
  intros Hinv. pose proof (inv_added _ _ _ _ _ _ Hinv) as Ha.
  revert Ha. generalize (added p) as rows. clear Hinv. unfold ids_at.
  intros rows Ha. induction Ha as [|a i rows picked Hai _ IH]; [done|].
  destruct Hai as (s0 & Hl & Hea & _). rewrite fmap_cons. simpl.
  rewrite Hl. simpl. f_equal; [by rewrite Hea|exact IH].
Qed.

Lemma pass_soldiers d U l0 seen picked p :
  pass_inv d U l0 seen picked p →
  all_soldiers p =
  imap (λ i s, if bool_decide (i ∈ picked) then serve s else s) l0.
Proof.
  intros Hinv. apply list_eq. intros i.
  by rewrite list_lookup_imap, (inv_soldiers _ _ _ _ _ _ Hinv).
Qed.

Lemma pass_soldiers_frame d U l0 seen picked p :
  pass_inv d U l0 seen picked p →
  Forall2 (λ s s',
             Soldier.id s' = Soldier.id s ∧
             Soldier.name s' = Soldier.name s ∧
             Soldier.rank s' = Soldier.rank s ∧
             Soldier.role s' = Soldier.role s ∧
             Soldier.is_available s' = Soldier.is_available s ∧
             (Soldier.total_services s' ≠ Soldier.total_services s →
              Soldier.id s ∈ Assignment.soldier_id <$> added p))
          l0 (all_soldiers p).
Proof.
  intros Hinv. apply Forall2_same_length_lookup_2.
  { by rewrite (pass_soldiers _ _ _ _ _ _ Hinv), length_imap. }
  intros i s s' Hs Hs'. rewrite (inv_soldiers _ _ _ _ _ _ Hinv), Hs in Hs'.
  injection Hs' as <-.
  destruct (decide (i ∈ picked)) as [Hi|Hi].
  - rewrite bool_decide_eq_true_2 by done. split_and!; try done.
    intros _. rewrite <- (ids_at_picked _ _ _ _ _ _ Hinv).
    unfold ids_at. apply list_elem_of_omap. exists i. by rewrite Hs.
  - rewrite bool_decide_eq_false_2 by done. by split_and!.
Qed.

Lemma fill_slots_no_pool d U shifts : ∀ p0,
  (∀ before shift_type after,
     shifts = before ++ shift_type :: after →
     candidates_of U (already_assigned_today (fill_slots d U p0 before))
                   shift_type (all_soldiers (fill_slots d U p0 before))
     = []) →
  fill_slots d U p0 shifts = p0.
Proof.
  induction shifts as [|shift_type shifts IH]; intros p0 Hno; [done|].
  assert (fill_slot d U p0 shift_type = p0) as Hstep.
  { pose proof (Hno [] shift_type shifts eq_refl) as Hnil.
    simpl in Hnil. unfold fill_slot. by rewrite Hnil. }
  simpl. rewrite Hstep. apply IH. intros before sh after ->.
  specialize (Hno (shift_type :: before) sh after eq_refl).
  simpl in Hno. by rewrite Hstep in Hno.
Qed.

(** ** Commits *)

Lemma pass_of_without_date d db : pass_of d (without_date d db) = pass_of d db.
Proof. done. Qed.

Lemma filter_not_deleted (l : list Assignment.t) :
  filter (λ a, a ∉ @nil Assignment.t) l = l.
Proof.
  induction l as [|a l IH]; [done|].
  rewrite filter_cons_True by apply not_elem_of_nil. by rewrite IH.
Qed.

Lemma filter_not_existing d (l : list Assignment.t) :
  filter (λ a, a ∉ filter (λ a, Assignment.date a = d) l) l =
  filter (λ a, Assignment.date a ≠ d) l.
Proof.
  assert (∀ k : list Assignment.t, (∀ a, a ∈ l → a ∈ k) →
    filter (λ a, a ∉ filter (λ a, Assignment.date a = d) k) l =
    filter (λ a, Assignment.date a ≠ d) l) as Hgen.
  { induction l as [|x l IH]; intros k Hk; [done|].
    rewrite !filter_cons.
    assert (x ∈ k) as Hx by (apply Hk, elem_of_cons; by left).
    assert (∀ a, a ∈ l → a ∈ k) as Hl
      by (intros a Ha; apply Hk, elem_of_cons; by right).
    destruct (decide (Assignment.date x ≠ d)) as [Hd|Hd].
    - rewrite decide_True; [by rewrite IH|].
      rewrite list_elem_of_filter. tauto.
    - rewrite decide_False; [by rewrite IH|].
      intros Hn. apply Hn, list_elem_of_filter. split; [|done].
      by destruct (decide (Assignment.date x = d)). }
  by apply Hgen.
Qed.

Lemma without_date_nothing d db :
  assignments_on d db = [] → without_date d db = db.
Proof.
  unfold assignments_on, without_date. intros Hnil.
  destruct db as [sol asg una]; simpl in *. f_equal.
  induction asg as [|a asg IH]; [done|].
  rewrite filter_cons in Hnil. rewrite filter_cons.
  destruct (decide (Assignment.date a = d)); [done|].
  rewrite decide_True by done. f_equal. by apply IH.
Qed.

Lemma assignments_on_without_date d db :
  assignments_on d (without_date d db) = [].
Proof.
  unfold assignments_on, without_date. simpl.
  induction (assignments db) as [|a asg IH]; [done|].
  rewrite filter_cons. destruct (decide (Assignment.date a ≠ d)); [|done].
  rewrite filter_cons, decide_False; done.
Qed.

Lemma assignments_on_other d d' db :
  d' ≠ d → assignments_on d' (without_date d db) = assignments_on d' db.
Proof.
  intros Hne. unfold assignments_on, without_date. simpl.
  induction (assignments db) as [|a asg IH]; [done|].
  rewrite !filter_cons.
  destruct (decide (Assignment.date a ≠ d)) as [Hd|Hd].
  - rewrite filter_cons. by rewrite IH.
  - rewrite decide_False; [done|].
    intros Hd'. apply Hd. congruence.
Qed.

Lemma without_date_idem d db :
  without_date d (without_date d db) = without_date d db.
Proof. apply without_date_nothing, assignments_on_without_date. Qed.

(** ** Independence of the roster order *)

Lemma soldier_by_id (l : list Soldier.t) s1 s2 :
  NoDup (Soldier.id <$> l) → s1 ∈ l → s2 ∈ l →
  Soldier.id s1 = Soldier.id s2 → s1 = s2.
Proof.
  intros Hkeys [i Hi]%list_elem_of_lookup [j Hj]%list_elem_of_lookup Hid.
  assert (i = j) as ->; [|congruence].
  eapply NoDup_lookup; [exact Hkeys| |].
  - by rewrite list_lookup_fmap, Hi.
  - rewrite list_lookup_fmap, Hj. simpl. by rewrite Hid.
Qed.

Lemma alter_delete {A} (f : A → A) (l : list A) : ∀ i x,
  l !! i = Some x → alter f i l ≡ₚ f x :: delete i l.
Proof.
  induction l as [|y l IH]; intros [|i] x Hx; try done.
  - by injection Hx as ->.
  - simpl in *. rewrite (IH _ _ Hx). apply Permutation_swap.
Qed.

Lemma alter_Permutation {A} (f : A → A) (l1 l2 : list A) i j x :
  l1 ≡ₚ l2 → l1 !! i = Some x → l2 !! j = Some x →
  alter f i l1 ≡ₚ alter f j l2.
Proof.
  intros Hperm Hi Hj.
  rewrite (alter_delete f l1 i x Hi), (alter_delete f l2 j x Hj).
  apply Permutation_skip, (inj (cons x)).
  by rewrite <- (delete_Permutation l1 i x Hi),
             <- (delete_Permutation l2 j x Hj).
Qed.

Lemma serve_keeps_ids (l : list Soldier.t) i :
  Soldier.id <$> alter serve i l = Soldier.id <$> l.
Proof.
  rewrite (list_fmap_alter Soldier.id serve id) by by apply Forall_forall.
  by apply list_alter_id.
Qed.

Lemma unavailable_on_Permutation d db1 db2 :
  unavailabilities db1 ≡ₚ unavailabilities db2 →
  unavailable_on d db1 = unavailable_on d db2.
Proof. intros Hperm. unfold unavailable_on. by rewrite Hperm. Qed.

Lemma candidates_of_Permutation U A shift_type l1 l2 :
  l1 ≡ₚ l2 →
  (candidates_of U A shift_type l1).*2 ≡ₚ (candidates_of U A shift_type l2).*2.
Proof. intros Hperm. rewrite !candidates_of_soldiers. by rewrite Hperm. Qed.

(** On rosters that are permutations of each other and obey the
    primary-key constraint, [min] picks the same soldier. *)
Lemma py_min_Permutation U A shift_type l1 l2 :
  NoDup (Soldier.id <$> l1) → l1 ≡ₚ l2 →
  match py_min (candidates_of U A shift_type l1),
        py_min (candidates_of U A shift_type l2) with
  | None, None => True
  | Some r1, Some r2 =>
      r1.2 = r2.2 ∧ l1 !! r1.1 = Some r1.2 ∧ l2 !! r2.1 = Some r1.2
  | _, _ => False
  end.
Proof.
  intros Hkeys Hperm.
  pose proof (candidates_of_Permutation U A shift_type l1 l2 Hperm) as Hc.
  destruct (py_min (candidates_of U A shift_type l1)) as [[i1 s1]|] eqn:E1,
           (py_min (candidates_of U A shift_type l2)) as [[i2 s2]|] eqn:E2.
  - apply py_min_Some in E1 as [Hin1 Hmin1], E2 as [Hin2 Hmin2]. simpl in *.
    assert (∃ j, (j, s2) ∈ candidates_of U A shift_type l1) as [j1 Hj1].
    { assert (s2 ∈ (candidates_of U A shift_type l1).*2) as Hs2.
      { rewrite Hc. apply list_elem_of_fmap. by exists (i2, s2). }
      apply list_elem_of_fmap in Hs2 as ([j s] & -> & Hs). by exists j. }
    assert (∃ j, (j, s1) ∈ candidates_of U A shift_type l2) as [j2 Hj2].
    { assert (s1 ∈ (candidates_of U A shift_type l2).*2) as Hs1.
      { rewrite <- Hc. apply list_elem_of_fmap. by exists (i1, s1). }
      apply list_elem_of_fmap in Hs1 as ([j s] & -> & Hs). by exists j. }
    pose proof (key_le_antisym _ _ (Hmin1 _ Hj1) (Hmin2 _ Hj2)) as Hkey.
    apply candidates_of_elem in Hin1 as [Hl1 _], Hin2 as [Hl2 _],
                                Hj1 as [Hj1 _].
    assert (s1 = s2) as <-.
    { eapply (soldier_by_id l1); [done|by eapply list_elem_of_lookup_2..|].
      unfold key in Hkey. simpl in Hkey. congruence. }
    done.
  - apply py_min_None in E2. rewrite E2 in Hc. simpl in Hc.
    apply Permutation_nil_r in Hc. apply fmap_nil_inv in Hc.
    rewrite Hc in E1. done.
  - apply py_min_None in E1. rewrite E1 in Hc. simpl in Hc.
    symmetry in Hc. apply Permutation_nil_r in Hc. apply fmap_nil_inv in Hc.
    rewrite Hc in E2. done.
  - done.
Qed.

Lemma fill_slot_Permutation d U p1 p2 shift_type :
  NoDup (Soldier.id <$> all_soldiers p1) →
  pass_equiv p1 p2 →
  NoDup (Soldier.id <$> all_soldiers (fill_slot d U p1 shift_type)) ∧
  pass_equiv (fill_slot d U p1 shift_type) (fill_slot d U p2 shift_type).
Proof.
  intros Hkeys (Hperm & Hused & Hadded).
  pose proof (py_min_Permutation U (already_assigned_today p1) shift_type
                _ _ Hkeys Hperm) as Hmin.
  unfold fill_slot. rewrite <- Hused.
  destruct (py_min (candidates_of U (already_assigned_today p1) shift_type
                                  (all_soldiers p1))) as [[i1 s1]|],
           (py_min (candidates_of U (already_assigned_today p1) shift_type
                                  (all_soldiers p2))) as [[i2 s2]|];
    try done.
  simpl in Hmin. destruct Hmin as (<- & Hl1 & Hl2). simpl.
  split; [by rewrite serve_keeps_ids|].
  split_and!; simpl; [|done|by rewrite Hadded].
  by eapply alter_Permutation.
Qed.

Lemma fill_slots_Permutation d U shifts : ∀ p1 p2,
  NoDup (Soldier.id <$> all_soldiers p1) →
  pass_equiv p1 p2 →
  pass_equiv (fill_slots d U p1 shifts) (fill_slots d U p2 shifts).
Proof.
  induction shifts as [|shift_type shifts IH]; intros p1 p2 Hkeys Heq;
    [done|].
  destruct (fill_slot_Permutation d U p1 p2 shift_type Hkeys Heq)
    as [Hkeys' Heq'].
  simpl. by apply IH.
Qed.

Section GeneratorProperties.

Variable strptime_date : string → option date.
Variable allocate_id : list Assignment.t → Z.

Lemma insert_rows added : ∀ table,
  ∃ new, foldl (insert_row allocate_id) table added = table ++ new ∧
         pending <$> new = pending <$> added ∧
         Forall (λ r, is_Some (Assignment.id r)) new.
Proof.
  induction added as [|a added IH]; intros table; simpl.
  - exists []. by rewrite app_nil_r.
  - destruct (IH (insert_row allocate_id table a)) as (new & -> & Hp & Hid).
    unfold insert_row. eexists (_ :: new). rewrite <- app_assoc. simpl.
    split_and!; [done| |].
    + f_equal. exact Hp.
    + constructor; [by eexists|done].
Qed.

Lemma reset_date_eq faults db d :
  reset_date allocate_id faults db d =
  if reset_goes_through faults d db then Some (without_date d db) else None.
Proof.
  unfold reset_date, reset_goes_through.
  destruct (assignments_on d db) as [|a existing] eqn:E.
  - rewrite bool_decide_eq_true_2 by done. simpl.
    by rewrite without_date_nothing.
  - rewrite bool_decide_eq_false_2 by done. simpl.
    unfold commit. destruct (reset_commit_ok faults); [|done].
    simpl. unfold without_date. do 2 f_equal.
    rewrite <- E. apply filter_not_existing.
Qed.

Lemma generate_invalid faults db target_date_str :
  strptime_date target_date_str = None →
  generate_schedule_for_date strptime_date allocate_id faults db
                             target_date_str =
  {| outcome := Returned false;
     flashed :=
       [(String.append "Invalid date format: " target_date_str, "danger")];
     database := db |}.
Proof. unfold generate_schedule_for_date. by intros ->. Qed.

Lemma generate_valid faults db target_date_str d :
  strptime_date target_date_str = Some d →
  generate_schedule_for_date strptime_date allocate_id faults db
                             target_date_str =
  if reset_goes_through faults d db then
    if final_commit_ok faults then
      {| outcome := Returned true; flashed := [];
         database := applied allocate_id d db |}
    else {| outcome := Raised; flashed := []; database := without_date d db |}
  else {| outcome := Raised; flashed := []; database := db |}.
Proof.
  unfold generate_schedule_for_date. intros ->. rewrite reset_date_eq.
  destruct (reset_goes_through faults d db); [|done].
  unfold commit. destruct (final_commit_ok faults); [|done].
  by rewrite filter_not_deleted.
Qed.

Lemma generate_returned_true faults db target_date_str d :
  strptime_date target_date_str = Some d →
  outcome (generate_schedule_for_date strptime_date allocate_id faults db
                                      target_date_str) = Returned true →
  database (generate_schedule_for_date strptime_date allocate_id faults db
                                       target_date_str) =
  applied allocate_id d db.
Proof.
  intros Hd. rewrite (generate_valid _ _ _ _ Hd).
  destruct (reset_goes_through faults d db); [|done].
  by destruct (final_commit_ok faults).
Qed.

(** The rows a fully committed run leaves for its date are exactly the
    rows inserted from the pass. *)
Lemma applied_rows d db :
  ∃ new picked,
    pass_inv d (unavailable_on d db) (soldiers db) slots picked
             (pass_of d db) ∧
    assignments (applied allocate_id d db) =
      assignments (without_date d db) ++ new ∧
    assignments_on d (applied allocate_id d db) = new ∧
    pending <$> new = added (pass_of d db) ∧
    Forall (λ r, is_Some (Assignment.id r)) new.
Proof.
  destruct (pass_inv_of d db) as [picked Hinv].
  destruct (insert_rows (added (pass_of d db)) (assignments (without_date d db)))
    as (new & Hnew & Hp & Hid).
  assert (pending <$> new = added (pass_of d db)) as Hp'.
  { rewrite Hp. apply added_pending with (1 := Hinv). }
  exists new, picked. split_and!; try done.
  unfold assignments_on at 1. unfold applied. cbn [assignments].
  rewrite Hnew, filter_app.
  fold (assignments_on d (without_date d db)).
  rewrite assignments_on_without_date, app_nil_l.
  apply filter_Forall, Forall_forall. intros r Hr.
  apply (list_elem_of_fmap_2 pending) in Hr. rewrite Hp' in Hr.
  apply (added_date _ _ _ _ _ _ _ Hinv) in Hr. done.
Qed.


(** C10: after a successful run every slot label occurs on at most one
    of the date's assignments, there are at most five of them, and
    they are as many as the soldier objects whose [total_services]
    changed, which are pairwise distinct soldiers, each served once. *)
Theorem one_assignment_per_slot faults db target_date_str d :
  strptime_date target_date_str = Some d →
  outcome (generate_schedule_for_date strptime_date allocate_id faults db
                                      target_date_str) = Returned true →
  let db' := database (generate_schedule_for_date
                         strptime_date allocate_id faults db
                         target_date_str) in
  NoDup (Assignment.shift_type <$> assignments_on d db') ∧
  (length (assignments_on d db') ≤ 5)%nat ∧
  length (assignments_on d db') =
    length (incremented (soldiers db) (soldiers db')) ∧
  NoDup (ids_at (soldiers db) (incremented (soldiers db) (soldiers db'))) ∧
  (∀ i s, i ∈ incremented (soldiers db) (soldiers db') →
          soldiers db !! i = Some s →
          soldiers db' !! i = Some (serve s)).
Proof.
  intros Hd Hok db'. subst db'.
  rewrite (generate_returned_true _ _ _ _ Hd Hok).
  destruct (applied_rows d db) as (new & picked & Hinv & _ & -> & Hp & _).
  cbn [applied soldiers].
  pose proof (incremented_picked _ _ _ _ _ _ Hinv) as Hperm.
  assert (Assignment.shift_type <$> new `sublist_of` slots) as Hsub.
  { rewrite (fmap_of_pending Assignment.shift_type new _ (λ _, eq_refl) Hp).
    apply (inv_shifts _ _ _ _ _ _ Hinv). }
  split_and!.
  - apply (sublist_NoDup _ _ slots_NoDup Hsub).
  - apply sublist_length in Hsub. by rewrite length_fmap in Hsub.
  - rewrite Hperm, <- (Forall2_length _ _ _ (inv_added _ _ _ _ _ _ Hinv)).
    by rewrite <- Hp, length_fmap.
  - unfold ids_at. rewrite Hperm. fold (ids_at (soldiers db) picked).
    rewrite (ids_at_picked _ _ _ _ _ _ Hinv).
    apply (inv_ids _ _ _ _ _ _ Hinv).
  - intros i s Hi Hs. apply (incremented_elem _ _ _ _ _ _ _ Hinv) in Hi.
    rewrite (inv_soldiers _ _ _ _ _ _ Hinv), Hs. simpl.
    by rewrite bool_decide_eq_true_2.
Qed.

(** C5: the generator returns failure exactly when the date string
    does not parse, and then leaves the database as it was. For a
    parsed date it returns success unless the store rejects a commit,
    in which case the exception leaves the function; with a store that
    accepts its commits it returns success also when the roster is
    empty or every candidate pool was empty, and the date then has no
    assignment. *)
Theorem generate_fails_only_on_bad_date faults db target_date_str :
  (outcome (generate_schedule_for_date strptime_date allocate_id faults db
                                       target_date_str) = Returned false ↔
   strptime_date target_date_str = None) ∧
  (strptime_date target_date_str = None →
   database (generate_schedule_for_date strptime_date allocate_id faults db
                                        target_date_str) = db) ∧
  (∀ d, strptime_date target_date_str = Some d →
     outcome (generate_schedule_for_date strptime_date allocate_id
                faults db target_date_str) =
       (if reset_goes_through faults d db && final_commit_ok faults
        then Returned true else Raised) ∧
     outcome (generate_schedule_for_date strptime_date allocate_id
                no_faults db target_date_str) = Returned true ∧
     (soldiers db = [] →
      assignments_on d
        (database (generate_schedule_for_date strptime_date allocate_id
                     no_faults db target_date_str)) = []) ∧
     ((∀ before shift_type after,
         slots = before ++ shift_type :: after →
         pool_when_reached d db before shift_type = []) →
      assignments_on d
        (database (generate_schedule_for_date strptime_date allocate_id
                     no_faults db target_date_str)) = [])).
Proof.
  split_and!.
  - destruct (strptime_date target_date_str) as [d|] eqn:Hd.
    + rewrite (generate_valid _ _ _ _ Hd).
      destruct (reset_goes_through faults d db),
               (final_commit_ok faults); simpl; split; discriminate.
    + by rewrite (generate_invalid _ _ _ Hd).
  - intros Hd. by rewrite (generate_invalid _ _ _ Hd).
  - intros d Hd. split.
    { rewrite (generate_valid _ _ _ _ Hd).
      by destruct (reset_goes_through faults d db),
                  (final_commit_ok faults). }
    rewrite (generate_valid _ _ _ _ Hd).
    unfold reset_goes_through. simpl. rewrite orb_true_r. simpl.
    destruct (applied_rows d db) as (new & picked & _ & _ & -> & Hp & _).
    assert (added (pass_of d db) = [] → new = []) as Hnone.
    { intros Hnil. rewrite Hnil in Hp. by destruct new. }
    split_and!; [done| |].
    + intros Hempty. apply Hnone. unfold pass_of. by rewrite Hempty.
    + intros Hno. apply Hnone. unfold pass_of.
      by rewrite (fill_slots_no_pool _ _ _ _ Hno).
Qed.

(** C6: under the primary-key constraint on soldiers, a successful run
    for a date gives an assignment only to soldiers whose
    [is_available] flag is set and who have no unavailability record for
    that date. *)
Theorem unavailable_never_assigned faults db target_date_str d s a :
  NoDup (Soldier.id <$> soldiers db) →
  strptime_date target_date_str = Some d →
  outcome (generate_schedule_for_date strptime_date allocate_id faults db
                                      target_date_str) = Returned true →
  s ∈ soldiers db →
  a ∈ assignments_on d
        (database (generate_schedule_for_date strptime_date allocate_id
                     faults db target_date_str)) →
  Assignment.soldier_id a = Soldier.id s →
  Soldier.is_available s = true ∧
  (∀ u, u ∈ unavailabilities db → Unavailability.date u = d →
        Unavailability.soldier_id u ≠ Soldier.id s).
Proof.
  intros Hkeys Hd Hok Hs Ha Has.
  rewrite (generate_returned_true _ _ _ _ Hd Hok) in Ha.
  destruct (applied_rows d db) as (new & picked & Hinv & _ & Hon & Hp & _).
  rewrite Hon in Ha. apply (list_elem_of_fmap_2 pending) in Ha.
  rewrite Hp in Ha. apply list_elem_of_lookup in Ha as [k Hk].
  destruct (Forall2_lookup_l _ _ _ _ _ (inv_added _ _ _ _ _ _ Hinv) Hk)
    as (i & _ & s0 & Hl & Hea & Hc).
  assert (s0 = s) as ->.
  { apply list_elem_of_lookup in Hs as [j Hj].
    assert (i = j) as ->; [|congruence].
    eapply NoDup_lookup; [exact Hkeys| |].
    - by rewrite list_lookup_fmap, Hl.
    - rewrite list_lookup_fmap, Hj. simpl. f_equal.
      rewrite <- Has. apply (f_equal Assignment.soldier_id) in Hea.
      simpl in Hea. congruence. }
  apply is_candidate_true in Hc as (Hav & Hun & _).
  split; [done|]. intros u Hu Hdate Hsame. apply Hun.
  unfold unavailable_on. rewrite elem_of_list_to_set, list_elem_of_fmap.
  exists u. split; [done|]. by apply list_elem_of_filter.
Qed.

(** C7: whatever way a run ends, it leaves the unavailability records
    and the assignments of every date other than the one parsed as they
    were; of each soldier it leaves the id, name, rank, role and
    [is_available] as they were, and [total_services] too unless the
    soldier has an assignment of this run for the date. *)
Theorem generate_frame faults db target_date_str :
  let db' := database (generate_schedule_for_date
                         strptime_date allocate_id faults db
                         target_date_str) in
  unavailabilities db' = unavailabilities db ∧
  (∀ d', strptime_date target_date_str ≠ Some d' →
         assignments_on d' db' = assignments_on d' db) ∧
  Forall2 (λ s s',
             Soldier.id s' = Soldier.id s ∧
             Soldier.name s' = Soldier.name s ∧
             Soldier.rank s' = Soldier.rank s ∧
             Soldier.role s' = Soldier.role s ∧
             Soldier.is_available s' = Soldier.is_available s ∧
             (Soldier.total_services s' ≠ Soldier.total_services s →
              outcome (generate_schedule_for_date
                         strptime_date allocate_id faults db
                         target_date_str) = Returned true ∧
              ∃ d a, strptime_date target_date_str = Some d ∧
                     a ∈ assignments_on d db' ∧
                     Assignment.soldier_id a = Soldier.id s))
          (soldiers db) (soldiers db').
Proof.
  intros db'. subst db'.
  assert (Forall2 (λ s s' : Soldier.t,
             Soldier.id s' = Soldier.id s ∧
             Soldier.name s' = Soldier.name s ∧
             Soldier.rank s' = Soldier.rank s ∧
             Soldier.role s' = Soldier.role s ∧
             Soldier.is_available s' = Soldier.is_available s ∧
             (Soldier.total_services s' ≠ Soldier.total_services s →
              Returned true = Returned true ∧ False))
          (soldiers db) (soldiers db)) as Hsame.
  { apply Forall_Forall2_diag, Forall_forall. intros s _.
    by split_and!. }
  destruct (strptime_date target_date_str) as [d|] eqn:Hd.
  2:{ rewrite (generate_invalid _ _ _ Hd). simpl. split_and!; try done.
      roster_untouched Hsame. }
  rewrite (generate_valid _ _ _ _ Hd).
  destruct (reset_goes_through faults d db).
  2:{ simpl. split_and!; try done. roster_untouched Hsame. }
  destruct (final_commit_ok faults).
  2:{ simpl. split_and!; try done.
      - intros d' Hd'. apply assignments_on_other. congruence.
      - roster_untouched Hsame. }
  cbn [database outcome].
  destruct (applied_rows d db) as (new & picked & Hinv & Hall & Hon & Hp & _).
  split_and!; [done| |].
  - intros d' Hd'. assert (d' ≠ d) as Hne by congruence.
    unfold assignments_on at 1. rewrite Hall, filter_app.
    fold (assignments_on d' (without_date d db)).
    rewrite assignments_on_other by done.
    assert (filter (λ a, Assignment.date a = d') new = []) as ->.
    { apply filter_none, Forall_forall. intros r Hr. rewrite <- Hon in Hr.
      apply list_elem_of_filter in Hr as [Hr _]. congruence. }
    by rewrite app_nil_r.
  - eapply Forall2_impl; [apply (pass_soldiers_frame _ _ _ _ _ _ Hinv)|].
    simpl. intros s s' H. split_and!; try apply H.
    intros Hne. split; [done|]. apply H in Hne.
    rewrite <- (fmap_of_pending Assignment.soldier_id new _ (λ _, eq_refl) Hp)
      in Hne.
    apply list_elem_of_fmap in Hne as (a & Hid & Ha).
    exists d, a. by rewrite Hon.
Qed.

Lemma applied_without_date d db :
  applied allocate_id d (without_date d db) = applied allocate_id d db.
Proof.
  unfold applied. rewrite pass_of_without_date, without_date_idem. done.
Qed.

(** C8: a successful run leaves, for its date, exactly the rows it
    inserted itself, after the rows kept for the other dates; there are
    at most five of them, and the resulting database is the one the run
    produces when the date had no assignment to begin with. *)
Theorem regeneration_replaces faults db target_date_str d :
  strptime_date target_date_str = Some d →
  outcome (generate_schedule_for_date strptime_date allocate_id faults db
                                      target_date_str) = Returned true →
  let db' := database (generate_schedule_for_date
                         strptime_date allocate_id faults db
                         target_date_str) in
  (∃ new,
     assignments db' =
       filter (λ a, Assignment.date a ≠ d) (assignments db) ++ new ∧
     assignments_on d db' = new ∧
     pending <$> new = added (pass_of d db) ∧
     Forall (λ r, is_Some (Assignment.id r)) new) ∧
  (length (assignments_on d db') ≤ 5)%nat ∧
  db' = database (generate_schedule_for_date
                    strptime_date allocate_id no_faults
                    (without_date d db) target_date_str).
Proof.
  intros Hd Hok db'. subst db'.
  rewrite (generate_returned_true _ _ _ _ Hd Hok).
  destruct (applied_rows d db) as (new & picked & Hinv & Hall & Hon & Hp & Hid).
  split_and!.
  - by exists new.
  - rewrite Hon, <- (length_fmap Assignment.shift_type).
    rewrite (fmap_of_pending Assignment.shift_type new _ (λ _, eq_refl) Hp).
    apply (sublist_length _ _ (inv_shifts _ _ _ _ _ _ Hinv)).
  - rewrite (generate_valid _ _ _ _ Hd). unfold reset_goes_through. simpl.
    rewrite orb_true_r. simpl. by rewrite applied_without_date.
Qed.

(** C2 (as amended): a run persists in two units. When the date has
    assignments their deletion is committed first, on its own; the new
    assignments and the counter increments are committed together at
    the end. A rejected first commit leaves the database as it was; a
    rejected final commit leaves it with the date's assignments deleted
    and nothing else changed; otherwise all effects are applied. *)
Theorem commits_in_two_units faults db target_date_str d :
  strptime_date target_date_str = Some d →
  let r := generate_schedule_for_date strptime_date allocate_id faults db
                                      target_date_str in
  (assignments_on d db ≠ [] → reset_commit_ok faults = false →
   outcome r = Raised ∧ database r = db) ∧
  (assignments_on d db = [] ∨ reset_commit_ok faults = true →
   final_commit_ok faults = false →
   outcome r = Raised ∧
   soldiers (database r) = soldiers db ∧
   unavailabilities (database r) = unavailabilities db ∧
   assignments (database r) =
     filter (λ a, Assignment.date a ≠ d) (assignments db)) ∧
  (assignments_on d db = [] ∨ reset_commit_ok faults = true →
   final_commit_ok faults = true →
   outcome r = Returned true ∧
   database r = applied allocate_id d db).
Proof.
  intros Hd r. subst r. rewrite (generate_valid _ _ _ _ Hd).
  unfold reset_goes_through. split_and!.
  - intros Hex ->. by rewrite bool_decide_eq_false_2.
  - intros Hreset ->.
    assert (bool_decide (assignments_on d db = []) || reset_commit_ok faults
            = true) as ->; [|done].
    destruct Hreset as [Hnil| ->]; [|by rewrite orb_true_r].
    by rewrite bool_decide_eq_true_2.
  - intros Hreset ->.
    assert (bool_decide (assignments_on d db = []) || reset_commit_ok faults
            = true) as ->; [|done].
    destruct Hreset as [Hnil| ->]; [|by rewrite orb_true_r].
    by rewrite bool_decide_eq_true_2.
Qed.

(** C9: under the primary-key constraint on soldiers, two runs with the
    same store behaviour on databases whose soldier rows are
    permutations of each other, with the same assignments and the same
    set of unavailable soldiers for every date, end the same way, leave
    the same assignment rows, and leave the same soldier rows up to
    their order. *)
Theorem roster_order_irrelevant faults db1 db2 target_date_str :
  NoDup (Soldier.id <$> soldiers db1) →
  soldiers db1 ≡ₚ soldiers db2 →
  assignments db1 = assignments db2 →
  (∀ d, unavailable_on d db1 = unavailable_on d db2) →
  outcome (generate_schedule_for_date strptime_date allocate_id faults db1
                                      target_date_str) =
  outcome (generate_schedule_for_date strptime_date allocate_id faults db2
                                      target_date_str) ∧
  assignments (database (generate_schedule_for_date
                           strptime_date allocate_id faults db1
                           target_date_str)) =
  assignments (database (generate_schedule_for_date
                           strptime_date allocate_id faults db2
                           target_date_str)) ∧
  soldiers (database (generate_schedule_for_date
                        strptime_date allocate_id faults db1
                        target_date_str)) ≡ₚ
  soldiers (database (generate_schedule_for_date
                        strptime_date allocate_id faults db2
                        target_date_str)).
Proof.
  intros Hkeys Hperm Hasg Huna.
  destruct (strptime_date target_date_str) as [d|] eqn:Hd.
  2:{ by rewrite !(generate_invalid _ _ _ Hd). }
  rewrite !(generate_valid _ _ _ _ Hd).
  assert (reset_goes_through faults d db1 = reset_goes_through faults d db2)
    as <- by (unfold reset_goes_through, assignments_on; by rewrite Hasg).
  destruct (reset_goes_through faults d db1); [|done].
  destruct (final_commit_ok faults).
  2:{ simpl. by rewrite Hasg. }
  assert (pass_equiv (pass_of d db1) (pass_of d db2)) as (Hs & _ & Ha).
  { unfold pass_of. rewrite <- (Huna d).
    by apply fill_slots_Permutation. }
  simpl. by rewrite Hasg, Ha.
Qed.

End GeneratorProperties.

(** * The generator on sample data *)

(** The scenario of the specification: of two watch soldiers the one
    with fewer services takes the first slot and the other the second;
    both counters go up by one. *)
Example scenario_lower_count_first :
  generate no_faults duo "2024-01-15" =
  {| outcome := Returned true;
     flashed := [];
     database :=
       {| soldiers :=
            [ Soldier.mk 1 "A" "Στρατιώτης" "Σκοπιά" 4 true;
              Soldier.mk 2 "B" "Στρατιώτης" "Σκοπιά" 2 true ];
          assignments :=
            [ Assignment.mk (Some 1) 2 jan15 "Σκοπιά 00:00-02:00" false;
              Assignment.mk (Some 2) 1 jan15 "Σκοπιά 02:00-04:00" false ];
          unavailabilities := [] |} |}.
Proof. by vm_compute. Qed.

(** With the second soldier on leave that day the first one is taken. *)
Example scenario_unavailable_skipped :
  assignments (database (generate no_faults duo_bravo_away "2024-01-15")) =
  [ Assignment.mk (Some 1) 1 jan15 "Σκοπιά 00:00-02:00" false ].
Proof. by vm_compute. Qed.

Example scenario_invalid_date :
  generate no_faults unit_db "2024-02-30" =
  {| outcome := Returned false;
     flashed := [("Invalid date format: 2024-02-30", "danger")];
     database := unit_db |}.
Proof. by vm_compute. Qed.

(** C2 fails as stated: when the store rejects the final commit of a
    run for a date that had assignments, the run raises and the
    database is not what it was: the date's schedule is gone. *)
Lemma rejected_commit_loses_schedule :
  outcome (generate final_commit_rejected unit_db "2024-01-15") = Raised ∧
  database (generate final_commit_rejected unit_db "2024-01-15") ≠ unit_db ∧
  assignments_on jan15 unit_db ≠ [] ∧
  assignments_on jan15
    (database (generate final_commit_rejected unit_db "2024-01-15")) = [].
Proof.
  split_and!.
  - by vm_compute.
  - intros H. apply (f_equal assignments) in H. vm_compute in H.
    discriminate H.
  - by vm_compute.
  - by vm_compute.
Qed.

(** C5 fails as stated: a date string that parses does not always make
    the generator return success. When the store rejects the final
    commit, or the commit of the deletions, the exception leaves the
    function, which then returns neither success nor failure. *)
Lemma parsed_date_can_raise :
  iso_date "2024-01-15" = Some jan15 ∧
  outcome (generate final_commit_rejected unit_db "2024-01-15") = Raised ∧
  outcome (generate final_commit_rejected unit_db "2024-01-15")
    ≠ Returned true ∧
  outcome (generate {| reset_commit_ok := false; final_commit_ok := true |}
                    unit_db "2024-01-15") = Raised.
Proof.
  split_and!.
  - by vm_compute.
  - by vm_compute.
  - intros H. vm_compute in H. discriminate H.
  - by vm_compute.
Qed.

(** ** The theorems at the sample unit *)


Lemma one_assignment_per_slot_witness :
  iso_date "2024-01-15" = Some jan15 ∧
  outcome (generate no_faults unit_db "2024-01-15") = Returned true ∧
  let db' := database (generate no_faults unit_db "2024-01-15") in
  NoDup (Assignment.shift_type <$> assignments_on jan15 db') ∧
  (length (assignments_on jan15 db') ≤ 5)%nat ∧
  length (assignments_on jan15 db') =
    length (incremented (soldiers unit_db) (soldiers db')) ∧
  NoDup (ids_at (soldiers unit_db)
                (incremented (soldiers unit_db) (soldiers db'))) ∧
  (∀ i s, i ∈ incremented (soldiers unit_db) (soldiers db') →
          soldiers unit_db !! i = Some s →
          soldiers db' !! i = Some (serve s)).
Proof.
  assert (iso_date "2024-01-15" = Some jan15) as Hd by (by vm_compute).
  assert (outcome (generate no_faults unit_db "2024-01-15") = Returned true)
    as Hok by (by vm_compute).
  split; [exact Hd|]. split; [exact Hok|].
  exact (one_assignment_per_slot iso_date rowid_after no_faults
           unit_db "2024-01-15" jan15 Hd Hok).
Defined.

Lemma fill_slot_selects_witness :
  candidates_of ∅ ∅ "Σκοπιά 00:00-02:00" [alpha; bravo] ≠ [] ∧
  ∃ i best,
    (i, best) ∈ candidates_of ∅ ∅ "Σκοπιά 00:00-02:00" [alpha; bravo] ∧
    (∀ r, r ∈ candidates_of ∅ ∅ "Σκοπιά 00:00-02:00" [alpha; bravo] →
          Soldier.total_services best ≤ Soldier.total_services r.2 ∧
          (Soldier.total_services r.2 = Soldier.total_services best →
           Soldier.id best ≤ Soldier.id r.2)) ∧
    all_soldiers (fill_slot jan15 ∅ (start_pass [alpha; bravo])
                            "Σκοπιά 00:00-02:00") !! i =
      Some (Soldier.mk (Soldier.id best) (Soldier.name best)
                       (Soldier.rank best) (Soldier.role best)
                       (Soldier.total_services best + 1)
                       (Soldier.is_available best)) ∧
    (∀ j, j ≠ i →
          all_soldiers (fill_slot jan15 ∅ (start_pass [alpha; bravo])
                                  "Σκοπιά 00:00-02:00") !! j =
          [alpha; bravo] !! j) ∧
    added (fill_slot jan15 ∅ (start_pass [alpha; bravo])
                     "Σκοπιά 00:00-02:00") =
      [] ++ [Assignment.mk None (Soldier.id best) jan15
                           "Σκοπιά 00:00-02:00" false].
Proof.
  assert (candidates_of ∅ ∅ "Σκοπιά 00:00-02:00" [alpha; bravo] ≠ [])
    as Hpool by (by vm_compute).
  split; [exact Hpool|].
  exact (fill_slot_selects jan15 ∅ (start_pass [alpha; bravo])
           "Σκοπιά 00:00-02:00" Hpool).
Defined.

Lemma unavailable_never_assigned_witness :
  NoDup (Soldier.id <$> soldiers unit_db) ∧
  iso_date "2024-01-15" = Some jan15 ∧
  outcome (generate no_faults unit_db "2024-01-15") = Returned true ∧
  alpha ∈ soldiers unit_db ∧
  Assignment.mk (Some 2) 1 jan15 "Σκοπιά 00:00-02:00" false
    ∈ assignments_on jan15
        (database (generate no_faults unit_db "2024-01-15")) ∧
  Soldier.is_available alpha = true ∧
  (∀ u, u ∈ unavailabilities unit_db → Unavailability.date u = jan15 →
        Unavailability.soldier_id u ≠ Soldier.id alpha).
Proof.
  assert (NoDup (Soldier.id <$> soldiers unit_db)) as Hkeys
    by (apply (bool_decide_unpack _); by vm_compute).
  assert (iso_date "2024-01-15" = Some jan15) as Hd by (by vm_compute).
  assert (outcome (generate no_faults unit_db "2024-01-15") = Returned true)
    as Hok by (by vm_compute).
  assert (alpha ∈ soldiers unit_db) as Hs
    by (apply (bool_decide_unpack _); by vm_compute).
  assert (Assignment.mk (Some 2) 1 jan15 "Σκοπιά 00:00-02:00" false
            ∈ assignments_on jan15
                (database (generate no_faults unit_db "2024-01-15")))
    as Ha by (apply (bool_decide_unpack _); by vm_compute).
  split; [exact Hkeys|]. split; [exact Hd|]. split; [exact Hok|].
  split; [exact Hs|]. split; [exact Ha|].
  exact (unavailable_never_assigned iso_date rowid_after no_faults unit_db
           "2024-01-15" jan15 alpha _ Hkeys Hd Hok Hs Ha eq_refl).
Defined.

Lemma regeneration_replaces_witness :
  iso_date "2024-01-15" = Some jan15 ∧
  outcome (generate no_faults unit_db "2024-01-15") = Returned true ∧
  let db' := database (generate no_faults unit_db "2024-01-15") in
  (∃ new,
     assignments db' =
       filter (λ a, Assignment.date a ≠ jan15) (assignments unit_db) ++ new ∧
     assignments_on jan15 db' = new ∧
     pending <$> new = added (pass_of jan15 unit_db) ∧
     Forall (λ r, is_Some (Assignment.id r)) new) ∧
  (length (assignments_on jan15 db') ≤ 5)%nat ∧
  db' = database (generate no_faults (without_date jan15 unit_db)
                           "2024-01-15").
Proof.
  assert (iso_date "2024-01-15" = Some jan15) as Hd by (by vm_compute).
  assert (outcome (generate no_faults unit_db "2024-01-15") = Returned true)
    as Hok by (by vm_compute).
  split; [exact Hd|]. split; [exact Hok|].
  exact (regeneration_replaces iso_date rowid_after no_faults unit_db
           "2024-01-15" jan15 Hd Hok).
Defined.

Lemma commits_in_two_units_witness :
  iso_date "2024-01-15" = Some jan15 ∧
  let r := generate final_commit_rejected unit_db "2024-01-15" in
  (assignments_on jan15 unit_db ≠ [] →
   reset_commit_ok final_commit_rejected = false →
   outcome r = Raised ∧ database r = unit_db) ∧
  (assignments_on jan15 unit_db = [] ∨
   reset_commit_ok final_commit_rejected = true →
   final_commit_ok final_commit_rejected = false →
   outcome r = Raised ∧
   soldiers (database r) = soldiers unit_db ∧
   unavailabilities (database r) = unavailabilities unit_db ∧
   assignments (database r) =
     filter (λ a, Assignment.date a ≠ jan15) (assignments unit_db)) ∧
  (assignments_on jan15 unit_db = [] ∨
   reset_commit_ok final_commit_rejected = true →
   final_commit_ok final_commit_rejected = true →
   outcome r = Returned true ∧
   database r = applied rowid_after jan15 unit_db).
Proof.
  assert (iso_date "2024-01-15" = Some jan15) as Hd by (by vm_compute).
  split; [exact Hd|].
  exact (commits_in_two_units iso_date rowid_after final_commit_rejected
           unit_db "2024-01-15" jan15 Hd).
Defined.

Lemma roster_order_irrelevant_witness :
  NoDup (Soldier.id <$> soldiers unit_db) ∧
  soldiers unit_db ≡ₚ soldiers unit_db_shuffled ∧
  assignments unit_db = assignments unit_db_shuffled ∧
  (∀ d, unavailable_on d unit_db = unavailable_on d unit_db_shuffled) ∧
  outcome (generate no_faults unit_db "2024-01-15") =
  outcome (generate no_faults unit_db_shuffled "2024-01-15") ∧
  assignments (database (generate no_faults unit_db "2024-01-15")) =
  assignments (database (generate no_faults unit_db_shuffled "2024-01-15")) ∧
  soldiers (database (generate no_faults unit_db "2024-01-15")) ≡ₚ
  soldiers (database (generate no_faults unit_db_shuffled "2024-01-15")).
Proof.
  assert (NoDup (Soldier.id <$> soldiers unit_db)) as Hkeys
    by (apply (bool_decide_unpack _); by vm_compute).
  assert (soldiers unit_db ≡ₚ soldiers unit_db_shuffled) as Hperm
    by (apply (bool_decide_unpack _); by vm_compute).
  assert (∀ d, unavailable_on d unit_db = unavailable_on d unit_db_shuffled)
    as Huna.
  { intros d. apply unavailable_on_Permutation.
    apply (bool_decide_unpack _). by vm_compute. }
  split; [exact Hkeys|]. split; [exact Hperm|].
  split; [reflexivity|]. split; [exact Huna|].
  exact (roster_order_irrelevant iso_date rowid_after no_faults unit_db
           unit_db_shuffled "2024-01-15" Hkeys Hperm eq_refl Huna).
Defined.

(** * Beyond the claims: more of the generator *)

Lemma pass_ids d U l0 seen picked p :
  pass_inv d U l0 seen picked p →
  Soldier.id <$> all_soldiers p = Soldier.id <$> l0.
Proof.
  intros Hinv. apply list_eq. intros i.
  rewrite !list_lookup_fmap, (inv_soldiers _ _ _ _ _ _ Hinv).
  destruct (l0 !! i); simpl; [|done]. by case_bool_decide.
Qed.

Lemma services_alter_serve (l : list Soldier.t) : ∀ i s,
  l !! i = Some s → services (alter serve i l) = services l + 1.
Proof.
  unfold services.
  induction l as [|x l IH]; intros [|i] s Hs; try done; simpl in *.
  - lia.
  - specialize (IH _ _ Hs). unfold alter in IH. lia.
Qed.

Lemma fill_slot_services d U p shift_type :
  services (all_soldiers (fill_slot d U p shift_type))
    - Z.of_nat (length (added (fill_slot d U p shift_type))) =
  services (all_soldiers p) - Z.of_nat (length (added p)).
Proof.
  destruct (fill_slot_cases d U p shift_type)
    as [[_ ->]|(i & s & Hin & _ & ->)]; [done|].
  apply candidates_of_elem in Hin as [Hi _]. simpl.
  rewrite (services_alter_serve _ _ _ Hi), length_app. simpl. lia.
Qed.

Lemma fill_slots_services d U shifts : ∀ p,
  services (all_soldiers (fill_slots d U p shifts))
    - Z.of_nat (length (added (fill_slots d U p shifts))) =
  services (all_soldiers p) - Z.of_nat (length (added p)).
Proof.
  induction shifts as [|shift_type shifts IH]; intros p; [done|].
  simpl. rewrite IH. apply fill_slot_services.
Qed.

(** What a pass adds carries the labels of the slots it goes through,
    in their order. *)
Lemma fill_slots_labels d U shifts : ∀ p,
  ∃ extra,
    added (fill_slots d U p shifts) = added p ++ extra ∧
    Assignment.shift_type <$> extra `sublist_of` shifts.
Proof.
  induction shifts as [|shift_type shifts IH]; intros p.
  - exists []. by rewrite app_nil_r.
  - simpl. destruct (IH (fill_slot d U p shift_type)) as (extra & -> & Hsub).
    destruct (fill_slot_cases d U p shift_type)
      as [[_ ->]|(i & s & _ & _ & ->)].
    + exists extra. split; [done|]. by apply sublist_cons.
    + simpl. eexists (_ :: extra). rewrite <- app_assoc. split; [done|].
      rewrite fmap_cons. simpl. by apply sublist_skip.
Qed.

(** An assignment for a slot is there only if the pool of the slot was
    not empty when the pass reached it. *)
Lemma fill_slots_filled_pool d U l0 before shift_type after a :
  NoDup (before ++ shift_type :: after) →
  a ∈ added (fill_slots d U (start_pass l0)
               (before ++ shift_type :: after)) →
  Assignment.shift_type a = shift_type →
  candidates_of U
    (already_assigned_today (fill_slots d U (start_pass l0) before))
    shift_type (all_soldiers (fill_slots d U (start_pass l0) before)) ≠ [].
Proof.
  intros Hnd Ha Hsh Hnil.
  apply NoDup_app in Hnd as (_ & Hbefore & Hafter).
  apply NoDup_cons in Hafter as [Hafter _].
  rewrite fill_slots_app in Ha. simpl in Ha.
  set (p := fill_slots d U (start_pass l0) before) in *.
  assert (fill_slot d U p shift_type = p) as Hstep
    by (unfold fill_slot; by rewrite Hnil).
  rewrite Hstep in Ha.
  destruct (fill_slots_labels d U after p) as (extra & Hadd & Hsub).
  rewrite Hadd in Ha. apply elem_of_app in Ha as [Ha|Ha].
  - destruct (fill_slots_labels d U before (start_pass l0))
      as (first & Hfirst & Hsub').
    fold p in Hfirst. simpl in Hfirst. rewrite Hfirst in Ha.
    apply (list_elem_of_fmap_2 Assignment.shift_type) in Ha.
    rewrite Hsh in Ha. eapply Hbefore; [by eapply elem_of_sublist|].
    apply elem_of_cons. by left.
  - apply (list_elem_of_fmap_2 Assignment.shift_type) in Ha.
    rewrite Hsh in Ha. apply Hafter. by eapply elem_of_sublist.
Qed.

Lemma is_candidate_same_duty U A1 A2 shift1 shift2 s1 s2 :
  first_keyword role_keywords shift1 = first_keyword role_keywords shift2 →
  Soldier.id s1 = Soldier.id s2 →
  Soldier.role s1 = Soldier.role s2 →
  Soldier.is_available s1 = Soldier.is_available s2 →
  A1 ⊆ A2 →
  is_candidate U A2 shift2 s2 = true →
  is_candidate U A1 shift1 s1 = true.
Proof.
  intros Hkw Hid Hrole Hav Hsub.
  rewrite !is_candidate_true, !scan_keywords_first, Hkw, Hid, Hrole, Hav.
  intros (? & ? & Hused & ?). split_and!; try done.
  intros Hin. apply Hused. by apply Hsub.
Qed.

(** The pool of a later slot of the same duty is no larger than the
    pool of an earlier one. *)
Lemma pool_shrinks d U l0 before shift1 between shift2 :
  first_keyword role_keywords shift1 = first_keyword role_keywords shift2 →
  candidates_of U
    (already_assigned_today
       (fill_slots d U (start_pass l0) (before ++ shift1 :: between)))
    shift2
    (all_soldiers
       (fill_slots d U (start_pass l0) (before ++ shift1 :: between)))
    ≠ [] →
  candidates_of U
    (already_assigned_today (fill_slots d U (start_pass l0) before))
    shift1 (all_soldiers (fill_slots d U (start_pass l0) before)) ≠ [].
Proof.
  intros Hkw Hlater.
  destruct (pass_inv_fill_slots d U l0 before [] [] _ (pass_inv_start _ _ _))
    as [picked1 Hinv1].
  destruct (pass_inv_fill_slots d U l0 (before ++ shift1 :: between) [] [] _
              (pass_inv_start _ _ _)) as [picked2 Hinv2].
  simpl in Hinv1, Hinv2.
  set (p1 := fill_slots d U (start_pass l0) before) in *.
  set (p2 := fill_slots d U (start_pass l0) (before ++ shift1 :: between))
    in *.
  destruct (candidates_of U (already_assigned_today p2) shift2
                          (all_soldiers p2)) as [|[i s2] rest] eqn:E; [done|].
  assert ((i, s2) ∈ candidates_of U (already_assigned_today p2) shift2
                                  (all_soldiers p2)) as Hin
    by (rewrite E; apply elem_of_cons; by left).
  apply candidates_of_elem in Hin as [Hi2 Hc2].
  rewrite (inv_soldiers _ _ _ _ _ _ Hinv2) in Hi2.
  destruct (l0 !! i) as [s0|] eqn:Hl0; [|done]. simpl in Hi2.
  injection Hi2 as <-.
  assert (added p1 `prefix_of` added p2) as Hprefix.
  { unfold p2. rewrite fill_slots_app. apply fill_slots_added. }
  assert (already_assigned_today p1 ⊆ already_assigned_today p2) as Hsub.
  { rewrite (inv_already _ _ _ _ _ _ Hinv1), (inv_already _ _ _ _ _ _ Hinv2).
    intros k. rewrite !elem_of_list_to_set, !list_elem_of_fmap.
    intros (a & -> & Ha). exists a. split; [done|].
    by eapply elem_of_prefix. }
  intros Hnil.
  assert ((i, if bool_decide (i ∈ picked1) then serve s0 else s0)
            ∈ candidates_of U (already_assigned_today p1) shift1
                            (all_soldiers p1)) as Hin1.
  { apply candidates_of_elem. split.
    - by rewrite (inv_soldiers _ _ _ _ _ _ Hinv1), Hl0.
    - eapply is_candidate_same_duty; [exact Hkw| | | |exact Hsub|exact Hc2];
        by repeat case_bool_decide. }
  rewrite Hnil in Hin1. by apply elem_of_nil in Hin1.
Qed.

Section GeneratorBeyond.

Variable strptime_date : string → option date.
Variable allocate_id : list Assignment.t → Z.

(** X1: Role mismatch exclusion: under the primary-key constraint, a
    soldier given an assignment by a successful run has every keyword
    of the slot label in its role. *)
Theorem assigned_role_matches faults db target_date_str d s a keyword :
  NoDup (Soldier.id <$> soldiers db) →
  strptime_date target_date_str = Some d →
  outcome (generate_schedule_for_date strptime_date allocate_id faults db
                                      target_date_str) = Returned true →
  s ∈ soldiers db →
  a ∈ assignments_on d
        (database (generate_schedule_for_date strptime_date allocate_id
                     faults db target_date_str)) →
  Assignment.soldier_id a = Soldier.id s →
  keyword ∈ role_keywords →
  contains keyword (Assignment.shift_type a) = true →
  contains keyword (Soldier.role s) = true.
Proof.
  intros Hkeys Hd Hok Hs Ha Has Hk Hc.
  rewrite (generate_returned_true _ _ _ _ _ _ Hd Hok) in Ha.
  destruct (applied_rows allocate_id d db)
    as (new & picked & Hinv & _ & Hon & Hp & _).
  rewrite Hon in Ha. apply (list_elem_of_fmap_2 pending) in Ha.
  rewrite Hp in Ha.
  assert (Assignment.shift_type (pending a) ∈ slots) as Hslot.
  { eapply elem_of_sublist; [|apply (inv_shifts _ _ _ _ _ _ Hinv)].
    by apply list_elem_of_fmap_2. }
  apply list_elem_of_lookup in Ha as [k Hk'].
  destruct (Forall2_lookup_l _ _ _ _ _ (inv_added _ _ _ _ _ _ Hinv) Hk')
    as (i & _ & s0 & Hl & Hea & Hcand).
  assert (s0 = s) as ->.
  { eapply soldier_by_id; [exact Hkeys|by eapply list_elem_of_lookup_2|done|].
    apply (f_equal Assignment.soldier_id) in Hea. simpl in Hea. congruence. }
  apply is_candidate_true in Hcand as (_ & _ & _ & Hrole).
  rewrite scan_keywords_first in Hrole.
  change (Assignment.shift_type (pending a))
    with (Assignment.shift_type a) in Hslot, Hrole.
  rewrite (first_keyword_slots _ _ Hslot Hk Hc) in Hrole. by apply Hrole.
Qed.

(** X2: Referential integrity survives every run, however it ends: the
    rows a run inserts refer to soldiers of the roster, and it removes
    no soldier. *)
Theorem generate_keeps_references faults db target_date_str :
  references_ok db →
  references_ok
    (database (generate_schedule_for_date strptime_date allocate_id faults
                 db target_date_str)).
Proof.
  intros [Hasg Huna].
  destruct (strptime_date target_date_str) as [d|] eqn:Hd.
  2:{ by rewrite (generate_invalid _ _ _ _ _ Hd). }
  rewrite (generate_valid _ _ _ _ _ _ Hd).
  assert (∀ a, a ∈ assignments (without_date d db) →
               Assignment.soldier_id a ∈ Soldier.id <$> soldiers db) as Hkept.
  { intros a Ha. apply list_elem_of_filter in Ha as [_ Ha]. by apply Hasg. }
  destruct (reset_goes_through faults d db); [|done].
  destruct (final_commit_ok faults); [|done].
  destruct (applied_rows allocate_id d db)
    as (new & picked & Hinv & Hall & _ & Hp & _).
  split; cbn [database applied soldiers unavailabilities];
    rewrite (pass_ids _ _ _ _ _ _ Hinv); [|done].
  intros a Ha. rewrite Hall in Ha. apply elem_of_app in Ha as [Ha|Ha].
  { by apply Hkept. }
  apply (list_elem_of_fmap_2 pending) in Ha. rewrite Hp in Ha.
  apply list_elem_of_lookup in Ha as [k Hk].
  destruct (Forall2_lookup_l _ _ _ _ _ (inv_added _ _ _ _ _ _ Hinv) Hk)
    as (i & _ & s0 & Hl & Hea & _).
  apply (f_equal Assignment.soldier_id) in Hea. simpl in Hea.
  rewrite Hea. apply list_elem_of_fmap_2. by eapply list_elem_of_lookup_2.
Qed.

(** The counters of a run that went through: the roster it writes back
    has served once more for each row it inserts. *)
Lemma applied_services d db :
  services (soldiers (applied allocate_id d db)) =
  services (soldiers db) +
  Z.of_nat (length (assignments_on d (applied allocate_id d db))).
Proof.
  destruct (applied_rows allocate_id d db)
    as (new & picked & _ & _ & -> & Hp & _).
  rewrite <- (length_fmap pending), Hp. cbn [applied soldiers].
  pose proof (fill_slots_services d (unavailable_on d db) slots
                (start_pass (soldiers db))) as Hsum.
  fold (pass_of d db) in Hsum. simpl in Hsum. lia.
Qed.

(** X3: The fairness counters after a run for a parsed date: their sum
    grows by the number of assignments the date has after a run that
    returned success, and is unchanged by a run that ended otherwise. *)
Theorem services_after_run faults db target_date_str d :
  strptime_date target_date_str = Some d →
  services (soldiers (database (generate_schedule_for_date
                                  strptime_date allocate_id faults db
                                  target_date_str))) =
  services (soldiers db) +
  match outcome (generate_schedule_for_date strptime_date allocate_id
                   faults db target_date_str) with
  | Returned true =>
      Z.of_nat (length (assignments_on d
                          (database (generate_schedule_for_date
                                       strptime_date allocate_id faults db
                                       target_date_str))))
  | _ => 0
  end.
Proof.
  intros Hd. rewrite (generate_valid _ _ _ _ _ _ Hd).
  destruct (reset_goes_through faults d db); simpl; [|lia].
  destruct (final_commit_ok faults); simpl; [|lia].
  apply applied_services.
Qed.

(** X4: Regeneration is not neutral for the counters: after two successful
    runs for the same date the counters have grown by the assignments
    of both runs, although only those of the second are stored. *)
Theorem regeneration_counts_again faults1 faults2 db target_date_str d :
  strptime_date target_date_str = Some d →
  outcome (generate_schedule_for_date strptime_date allocate_id faults1 db
                                      target_date_str) = Returned true →
  outcome (generate_schedule_for_date strptime_date allocate_id faults2
             (database (generate_schedule_for_date
                          strptime_date allocate_id faults1 db
                          target_date_str))
             target_date_str) = Returned true →
  services (soldiers (database (generate_schedule_for_date
             strptime_date allocate_id faults2
             (database (generate_schedule_for_date
                          strptime_date allocate_id faults1 db
                          target_date_str))
             target_date_str))) =
  services (soldiers db) +
  Z.of_nat (length (assignments_on d
              (database (generate_schedule_for_date
                           strptime_date allocate_id faults1 db
                           target_date_str)))) +
  Z.of_nat (length (assignments_on d
              (database (generate_schedule_for_date
                 strptime_date allocate_id faults2
                 (database (generate_schedule_for_date
                              strptime_date allocate_id faults1 db
                              target_date_str))
                 target_date_str)))).
Proof.
  intros Hd Hok1 Hok2.
  rewrite (generate_returned_true _ _ _ _ _ _ Hd Hok2).
  rewrite (generate_returned_true _ _ _ _ _ _ Hd Hok1).
  by rewrite !applied_services.
Qed.

(** X5: Slots of the same duty are filled in their order: when a
    successful run has filled a slot, it has filled every earlier slot
    whose label names the same keyword. *)
Theorem same_duty_filled_in_order faults db target_date_str d
    before shift1 between shift2 after :
  strptime_date target_date_str = Some d →
  outcome (generate_schedule_for_date strptime_date allocate_id faults db
                                      target_date_str) = Returned true →
  slots = before ++ shift1 :: between ++ shift2 :: after →
  first_keyword role_keywords shift1 = first_keyword role_keywords shift2 →
  filled d (database (generate_schedule_for_date
                        strptime_date allocate_id faults db
                        target_date_str)) shift2 →
  filled d (database (generate_schedule_for_date
                        strptime_date allocate_id faults db
                        target_date_str)) shift1.
Proof.
  intros Hd Hok Hslots Hkw. unfold filled.
  rewrite (generate_returned_true _ _ _ _ _ _ Hd Hok).
  destruct (applied_rows allocate_id d db)
    as (new & picked & _ & _ & -> & Hp & _).
  intros (a2 & Ha2 & Hsh2).
  apply (list_elem_of_fmap_2 pending) in Ha2. rewrite Hp in Ha2.
  unfold pass_of in Ha2, Hp.
  pose proof slots_NoDup as Hnd. rewrite Hslots in Ha2, Hp, Hnd.
  assert (before ++ shift1 :: between ++ shift2 :: after =
          (before ++ shift1 :: between) ++ shift2 :: after) as Hsplit
    by (by rewrite <- app_assoc).
  rewrite Hsplit in Ha2, Hnd.
  pose proof (fill_slots_filled_pool d (unavailable_on d db) (soldiers db)
                _ shift2 after (pending a2) Hnd Ha2 Hsh2) as Hpool2.
  pose proof (pool_shrinks d (unavailable_on d db) (soldiers db)
                before shift1 between shift2 Hkw Hpool2) as Hpool1.
  destruct (fill_slots_covers d (unavailable_on d db)
              (start_pass (soldiers db)) before shift1
              (between ++ shift2 :: after) Hpool1) as (a1 & Ha1 & Hsh1).
  rewrite <- Hp in Ha1. apply list_elem_of_fmap in Ha1 as (r & -> & Hr).
  by exists r.
Qed.

End GeneratorBeyond.

(** * Beyond the claims: the views *)

Lemma confirmed_on_date d (l : list Assignment.t) :
  Forall (λ a, Assignment.confirmed a = true)
    (filter (λ a, Assignment.date a = d)
       ((λ a, if decide (Assignment.date a = d) then confirm a else a)
          <$> l)).
Proof.
  induction l as [|a l IH]; [constructor|].
  rewrite fmap_cons, filter_cons.
  destruct (decide (Assignment.date a = d)) as [Hd|Hd].
  - rewrite decide_True by done. by constructor.
  - by rewrite decide_False.
Qed.

Lemma confirmed_other_date d d' (l : list Assignment.t) :
  d' ≠ d →
  filter (λ a, Assignment.date a = d')
    ((λ a, if decide (Assignment.date a = d) then confirm a else a) <$> l) =
  filter (λ a, Assignment.date a = d') l.
Proof.
  intros Hne. induction l as [|a l IH]; [done|].
  rewrite fmap_cons, !filter_cons, IH.
  destruct (decide (Assignment.date a = d)) as [Hd|Hd]; [|done].
  rewrite !decide_False; [done|congruence|simpl; congruence].
Qed.

Lemma confirm_confirmed d (l : list Assignment.t) :
  confirm <$>
    ((λ a, if decide (Assignment.date a = d) then confirm a else a) <$> l) =
  confirm <$> l.
Proof.
  rewrite <- list_fmap_compose. apply list_fmap_ext. intros i a _. simpl.
  by destruct (decide (Assignment.date a = d)).
Qed.

Lemma confirm_twice d (l : list Assignment.t) :
  (λ a, if decide (Assignment.date a = d) then confirm a else a) <$>
    ((λ a, if decide (Assignment.date a = d) then confirm a else a) <$> l) =
  (λ a, if decide (Assignment.date a = d) then confirm a else a) <$> l.
Proof.
  rewrite <- list_fmap_compose. apply list_fmap_ext. intros i a _. simpl.
  destruct (decide (Assignment.date a = d)) as [Hd|Hd].
  - by rewrite decide_True.
  - by rewrite decide_False.
Qed.

Lemma get_soldier_Some soldier_id table i s :
  get_soldier soldier_id table = Some (i, s) →
  table !! i = Some s ∧ Soldier.id s = soldier_id.
Proof.
  unfold get_soldier. intros (Hl & Hid & _)%list_find_Some. done.
Qed.

Lemma get_soldier_None soldier_id table :
  get_soldier soldier_id table = None ↔
  soldier_id ∉ Soldier.id <$> table.
Proof.
  unfold get_soldier. rewrite list_find_None, Forall_forall,
    list_elem_of_fmap. split.
  - intros Hno (s & -> & Hs). by apply (Hno s).
  - intros Hno s Hs Hid. apply Hno. by exists s.
Qed.

Lemma delete_elem {A} (l : list A) i x y :
  l !! i = Some x → y ∈ l → y ≠ x → y ∈ delete i l.
Proof.
  intros Hi Hy Hne. rewrite (delete_Permutation l i x Hi) in Hy.
  apply elem_of_cons in Hy as [->|Hy]; done.
Qed.

Lemma delete_key (l : list Soldier.t) i s :
  NoDup (Soldier.id <$> l) → l !! i = Some s →
  Soldier.id s ∉ Soldier.id <$> delete i l.
Proof.
  intros Hkeys Hi.
  rewrite (delete_Permutation l i s Hi), fmap_cons in Hkeys.
  by apply NoDup_cons in Hkeys as [Hnot _].
Qed.

Section ViewProperties.

Variable strptime_date : string → option date.
Variable isoformat : date → string.
Variable strip : string → string.
Variable to_int : string → option Z.
Variable allocate_id : list Assignment.t → Z.
Variable allocate_soldier_id : list Soldier.t → Z.
Variable allocate_unavailability_id : list Unavailability.t → Z.

(** What a successful run leaves for its date refers to soldiers of
    the roster that are not unavailable on the date, and is
    unconfirmed. *)
Lemma assigned_facts faults db target_date_str d a :
  strptime_date target_date_str = Some d →
  outcome (generate_schedule_for_date strptime_date allocate_id faults db
                                      target_date_str) = Returned true →
  a ∈ assignments_on d
        (database (generate_schedule_for_date strptime_date allocate_id
                     faults db target_date_str)) →
  Assignment.soldier_id a ∈ Soldier.id <$> soldiers db ∧
  (Assignment.soldier_id a ∉ unavailable_on d db) ∧
  Assignment.confirmed a = false.
Proof.
  intros Hd Hok Ha.
  rewrite (generate_returned_true _ _ _ _ _ _ Hd Hok) in Ha.
  destruct (applied_rows allocate_id d db)
    as (new & picked & Hinv & _ & Hon & Hp & _).
  rewrite Hon in Ha. apply (list_elem_of_fmap_2 pending) in Ha.
  rewrite Hp in Ha. apply list_elem_of_lookup in Ha as [k Hk].
  destruct (Forall2_lookup_l _ _ _ _ _ (inv_added _ _ _ _ _ _ Hinv) Hk)
    as (i & _ & s0 & Hl & Hea & Hc).
  apply is_candidate_true in Hc as (_ & Hun & _).
  pose proof (f_equal Assignment.soldier_id Hea) as Hid.
  pose proof (f_equal Assignment.confirmed Hea) as Hconf.
  simpl in Hid, Hconf. rewrite Hid. split_and!; [|done|done].
  apply list_elem_of_fmap_2. by eapply list_elem_of_lookup_2.
Qed.

Lemma delete_soldier_facts db soldier_id :
  NoDup (Soldier.id <$> soldiers db) →
  soldier_id ∈ Soldier.id <$> soldiers db →
  (soldier_id ∉
     Soldier.id <$> soldiers (stored (Routes.delete_soldier true db
                                        soldier_id))) ∧
  assignments (stored (Routes.delete_soldier true db soldier_id)) =
    filter (λ a, Assignment.soldier_id a ≠ soldier_id) (assignments db).
Proof.
  intros Hkeys Hin. unfold Routes.delete_soldier.
  destruct (get_soldier soldier_id (soldiers db)) as [[i s]|] eqn:E.
  2:{ by apply get_soldier_None in E. }
  apply get_soldier_Some in E as [Hi <-].
  cbn [stored soldiers assignments]. split; [|done]. by apply delete_key.
Qed.

(** The database the unavailability form leaves when it is accepted. *)
Lemma unavailability_added db request k d :
  method request = POST →
  form request !! "action" = Some "add" →
  form request !! "soldier_id" ≫= to_int = Some k →
  strptime_date (strip (default "" (form request !! "date"))) = Some d →
  succeeded (Routes.unavailability strptime_date strip to_int
               allocate_unavailability_id true db request) →
  stored (Routes.unavailability strptime_date strip to_int
            allocate_unavailability_id true db request) =
  {| soldiers := soldiers db;
     assignments := assignments db;
     unavailabilities :=
       unavailabilities db ++
       [Unavailability.mk (allocate_unavailability_id (unavailabilities db))
          k d (strip (default "" (form request !! "reason")))] |}.
Proof.
  intros Hm Hact Hk Hdate. unfold Routes.unavailability, succeeded.
  rewrite Hm, Hact, Hk, Hdate. rewrite bool_decide_eq_true_2 by done.
  destruct (negb (k =? 0) && _ && _); [done|].
  by intros [? [=]].
Qed.

(** X6: [confirm_schedule] for a parsed date, its commit accepted: every
    assignment of the date is confirmed, no row changes in anything but
    that flag, and the other dates, the soldiers and the unavailability
    records are as they were. *)
Theorem confirm_schedule_confirms db date_str d :
  strptime_date date_str = Some d →
  succeeded (Routes.confirm_schedule strptime_date isoformat true db
                                     date_str) ∧
  Forall (λ a, Assignment.confirmed a = true)
    (assignments_on d
       (stored (Routes.confirm_schedule strptime_date isoformat true db
                                        date_str))) ∧
  confirm <$> assignments
                (stored (Routes.confirm_schedule strptime_date isoformat
                           true db date_str)) =
  confirm <$> assignments db ∧
  (∀ d', d' ≠ d →
     assignments_on d'
       (stored (Routes.confirm_schedule strptime_date isoformat true db
                                        date_str)) =
     assignments_on d' db) ∧
  soldiers (stored (Routes.confirm_schedule strptime_date isoformat true
                      db date_str)) = soldiers db ∧
  unavailabilities
    (stored (Routes.confirm_schedule strptime_date isoformat true db
                                     date_str)) = unavailabilities db.
Proof.
  intros Hd. unfold Routes.confirm_schedule, assignments_on.
  rewrite Hd. cbn [stored assignments soldiers unavailabilities].
  split_and!; try done.
  - by eexists.
  - apply confirmed_on_date.
  - apply confirm_confirmed.
  - intros d' Hne. by apply confirmed_other_date.
Qed.

(** X7: Confirming twice is confirming once. *)
Theorem confirm_schedule_idempotent db date_str :
  stored (Routes.confirm_schedule strptime_date isoformat true
            (stored (Routes.confirm_schedule strptime_date isoformat true
                       db date_str))
            date_str) =
  stored (Routes.confirm_schedule strptime_date isoformat true db date_str).
Proof.
  unfold Routes.confirm_schedule.
  destruct (strptime_date date_str) as [d|]; [|done].
  cbn [stored assignments soldiers unavailabilities].
  by rewrite confirm_twice.
Qed.

(** X8: Regenerating a date discards its confirmations: after a successful
    run on a database whose schedule for the date had been confirmed,
    every assignment of the date is unconfirmed. *)
Theorem regeneration_discards_confirmation faults db date_str d :
  strptime_date date_str = Some d →
  outcome (generate_schedule_for_date strptime_date allocate_id faults
             (stored (Routes.confirm_schedule strptime_date isoformat true
                        db date_str))
             date_str) = Returned true →
  Forall (λ a, Assignment.confirmed a = false)
    (assignments_on d
       (database (generate_schedule_for_date strptime_date allocate_id
                    faults
                    (stored (Routes.confirm_schedule strptime_date
                               isoformat true db date_str))
                    date_str))).
Proof.
  intros Hd Hok. apply Forall_forall. intros a Ha.
  by destruct (assigned_facts _ _ _ _ _ Hd Hok Ha) as (_ & _ & ?).
Qed.

(** X9: The views other than [generate] write nothing silently: whenever
    the database a request leaves differs from the one it found, the
    view has flashed a success message. *)
Theorem views_write_only_on_success accepted db request soldier_id date_str :
  (stored (Routes.soldiers strip allocate_soldier_id accepted db request)
   = db ∨
   succeeded (Routes.soldiers strip allocate_soldier_id accepted db request))
  ∧
  (stored (Routes.edit_soldier strip accepted db request soldier_id) = db ∨
   succeeded (Routes.edit_soldier strip accepted db request soldier_id)) ∧
  (stored (Routes.delete_soldier accepted db soldier_id) = db ∨
   succeeded (Routes.delete_soldier accepted db soldier_id)) ∧
  (stored (Routes.unavailability strptime_date strip to_int
             allocate_unavailability_id accepted db request) = db ∨
   succeeded (Routes.unavailability strptime_date strip to_int
                allocate_unavailability_id accepted db request)) ∧
  (stored (Routes.confirm_schedule strptime_date isoformat accepted db
                                   date_str) = db ∨
   succeeded (Routes.confirm_schedule strptime_date isoformat accepted db
                                      date_str)).
Proof.
  unfold Routes.soldiers, Routes.edit_soldier, Routes.delete_soldier,
    Routes.unavailability, Routes.confirm_schedule, Routes.raised, succeeded.
  split_and!; repeat case_match; cbn [stored messages];
    first [by left | right; by eexists].
Qed.

(** X10: [delete_soldier] of a soldier of the roster, under the primary-key
    constraint: the soldier is gone together with every assignment and
    every unavailability record that referred to it, the rows of the
    other soldiers are kept, and referential integrity is preserved. *)
Theorem delete_soldier_cascades db soldier_id :
  NoDup (Soldier.id <$> soldiers db) →
  soldier_id ∈ Soldier.id <$> soldiers db →
  succeeded (Routes.delete_soldier true db soldier_id) ∧
  (soldier_id ∉
     Soldier.id <$> soldiers (stored (Routes.delete_soldier true db
                                        soldier_id))) ∧
  (∀ s, s ∈ soldiers db → Soldier.id s ≠ soldier_id →
        s ∈ soldiers (stored (Routes.delete_soldier true db soldier_id))) ∧
  assignments (stored (Routes.delete_soldier true db soldier_id)) =
    filter (λ a, Assignment.soldier_id a ≠ soldier_id) (assignments db) ∧
  unavailabilities (stored (Routes.delete_soldier true db soldier_id)) =
    filter (λ u, Unavailability.soldier_id u ≠ soldier_id)
           (unavailabilities db) ∧
  (references_ok db →
   references_ok (stored (Routes.delete_soldier true db soldier_id))).
Proof.
  intros Hkeys Hin. unfold Routes.delete_soldier.
  destruct (get_soldier soldier_id (soldiers db)) as [[i s]|] eqn:E.
  2:{ by apply get_soldier_None in E. }
  apply get_soldier_Some in E as [Hi <-].
  cbn [stored soldiers assignments unavailabilities].
  assert (∀ s', s' ∈ soldiers db → Soldier.id s' ≠ Soldier.id s →
                s' ∈ delete i (soldiers db)) as Hkept.
  { intros s' Hs' Hne. eapply delete_elem; [exact Hi|exact Hs'|congruence]. }
  split_and!; try done.
  - by eexists.
  - by apply delete_key.
  - intros [Hasg Huna]. split; cbn [soldiers assignments unavailabilities].
    + intros a [Hne Ha]%list_elem_of_filter.
      apply Hasg, list_elem_of_fmap in Ha as (s' & Hid & Hs').
      rewrite Hid. apply list_elem_of_fmap_2, Hkept; congruence.
    + intros u [Hne Hu]%list_elem_of_filter.
      apply Huna, list_elem_of_fmap in Hu as (s' & Hid & Hs').
      rewrite Hid. apply list_elem_of_fmap_2, Hkept; congruence.
Qed.

(** X11: [delete_soldier] and [edit_soldier] of an id that is not in the
    roster answer 404 and leave the database as it was. *)
Theorem missing_soldier_not_found accepted db request soldier_id :
  soldier_id ∉ Soldier.id <$> soldiers db →
  Routes.delete_soldier accepted db soldier_id =
    {| response := Some NotFound; messages := []; stored := db |} ∧
  Routes.edit_soldier strip accepted db request soldier_id =
    {| response := Some NotFound; messages := []; stored := db |}.
Proof.
  intros Hno%get_soldier_None.
  unfold Routes.delete_soldier, Routes.edit_soldier. by rewrite Hno.
Qed.

(** X12: A deleted soldier is never scheduled again: after the deletion
    and a successful run, no assignment of any date refers to it. *)
Theorem deleted_soldier_never_scheduled faults db soldier_id
    target_date_str d a :
  NoDup (Soldier.id <$> soldiers db) →
  soldier_id ∈ Soldier.id <$> soldiers db →
  strptime_date target_date_str = Some d →
  outcome (generate_schedule_for_date strptime_date allocate_id faults
             (stored (Routes.delete_soldier true db soldier_id))
             target_date_str) = Returned true →
  a ∈ assignments
        (database (generate_schedule_for_date strptime_date allocate_id
                     faults
                     (stored (Routes.delete_soldier true db soldier_id))
                     target_date_str)) →
  Assignment.soldier_id a ≠ soldier_id.
Proof.
  intros Hkeys Hin Hd Hok Ha.
  destruct (delete_soldier_facts db soldier_id Hkeys Hin) as (Hgone & Hasg).
  set (db1 := stored (Routes.delete_soldier true db soldier_id)) in *.
  destruct (decide (Assignment.date a = d)) as [Hdate|Hdate].
  - assert (a ∈ assignments_on d
                  (database (generate_schedule_for_date
                               strptime_date allocate_id faults db1
                               target_date_str))) as Hon
      by (by apply list_elem_of_filter).
    destruct (assigned_facts _ _ _ _ _ Hd Hok Hon) as (Hroster & _ & _).
    intros Heq. apply Hgone. by rewrite <- Heq.
  - rewrite (generate_returned_true _ _ _ _ _ _ Hd Hok) in Ha.
    destruct (applied_rows allocate_id d db1)
      as (new & picked & _ & Hall & Hon & _).
    rewrite Hall in Ha. apply elem_of_app in Ha as [Ha|Ha].
    + apply list_elem_of_filter in Ha as [_ Ha]. rewrite Hasg in Ha.
      by apply list_elem_of_filter in Ha as [Hne _].
    + rewrite <- Hon in Ha. by apply list_elem_of_filter in Ha as [? _].
Qed.

(** X13: Recording an unavailability takes effect on the next run: after
    the form has been accepted for a soldier and a date, a successful
    run for that date gives the soldier no assignment. *)
Theorem unavailability_blocks_assignment faults db request k d
    target_date_str a :
  method request = POST →
  form request !! "action" = Some "add" →
  form request !! "soldier_id" ≫= to_int = Some k →
  strptime_date (strip (default "" (form request !! "date"))) = Some d →
  succeeded (Routes.unavailability strptime_date strip to_int
               allocate_unavailability_id true db request) →
  strptime_date target_date_str = Some d →
  outcome (generate_schedule_for_date strptime_date allocate_id faults
             (stored (Routes.unavailability strptime_date strip to_int
                        allocate_unavailability_id true db request))
             target_date_str) = Returned true →
  a ∈ assignments_on d
        (database (generate_schedule_for_date strptime_date allocate_id
                     faults
                     (stored (Routes.unavailability strptime_date strip
                                to_int allocate_unavailability_id true db
                                request))
                     target_date_str)) →
  Assignment.soldier_id a ≠ k.
Proof.
  intros Hm Hact Hk Hdate Hsucc Hd Hok Ha.
  pose proof (unavailability_added db request k d Hm Hact Hk Hdate Hsucc)
    as Hstored.
  destruct (assigned_facts _ _ _ _ _ Hd Hok Ha) as (_ & Hun & _).
  intros Heq. apply Hun. rewrite Hstored. unfold unavailable_on.
  cbn [unavailabilities]. rewrite filter_app, fmap_app, list_to_set_app_L.
  apply elem_of_union. right. rewrite filter_cons_True by done.
  rewrite Heq. simpl. apply elem_of_union. left.
  by apply elem_of_singleton.
Qed.

(** X14: Adding an unavailability record and deleting it again by the key
    the database gave it, a key no other record has, restores the
    database. *)
Theorem unavailability_add_delete db add_request delete_request k d :
  method add_request = POST →
  form add_request !! "action" = Some "add" →
  form add_request !! "soldier_id" ≫= to_int = Some k →
  strptime_date (strip (default "" (form add_request !! "date"))) = Some d →
  succeeded (Routes.unavailability strptime_date strip to_int
               allocate_unavailability_id true db add_request) →
  (∀ u, u ∈ unavailabilities db →
        Unavailability.id u ≠
        allocate_unavailability_id (unavailabilities db)) →
  method delete_request = POST →
  form delete_request !! "action" = Some "delete" →
  form delete_request !! "unavail_id" ≫= to_int =
    Some (allocate_unavailability_id (unavailabilities db)) →
  stored (Routes.unavailability strptime_date strip to_int
            allocate_unavailability_id true
            (stored (Routes.unavailability strptime_date strip to_int
                       allocate_unavailability_id true db add_request))
            delete_request) = db.
Proof.
  intros Hm Hact Hk Hdate Hsucc Hfresh Hm' Hact' Hid.
  rewrite (unavailability_added db add_request k d Hm Hact Hk Hdate Hsucc).
  unfold Routes.unavailability at 1. rewrite Hm', Hact'.
  rewrite bool_decide_eq_false_2 by done.
  rewrite bool_decide_eq_true_2 by done.
  rewrite Hid. cbn [unavailabilities mbind option_bind].
  unfold get_unavailability.
  rewrite list_find_app_r.
  2:{ apply list_find_None, Forall_forall. intros u Hu. by apply Hfresh. }
  simpl. rewrite decide_True by done. simpl.
  cbn [stored soldiers assignments unavailabilities].
  replace (0 + length (unavailabilities db))%nat
    with (length (unavailabilities db)) by lia.
  rewrite delete_middle, app_nil_r. by destruct db.
Qed.

(** X15: [edit_soldier] never touches a counter, an id or a name, whatever
    the form holds and whether or not the commit is accepted, and it
    leaves assignments and unavailability records alone; with an empty
    role it changes nothing at all. *)
Theorem edit_soldier_keeps_counters accepted db request soldier_id :
  Forall2 (λ s s',
             Soldier.id s' = Soldier.id s ∧
             Soldier.name s' = Soldier.name s ∧
             Soldier.total_services s' = Soldier.total_services s)
          (soldiers db)
          (soldiers (stored (Routes.edit_soldier strip accepted db request
                                                 soldier_id))) ∧
  assignments (stored (Routes.edit_soldier strip accepted db request
                                           soldier_id)) = assignments db ∧
  unavailabilities (stored (Routes.edit_soldier strip accepted db request
                                                soldier_id)) =
    unavailabilities db ∧
  (nonempty (strip (default "" (form request !! "role"))) = false →
   stored (Routes.edit_soldier strip accepted db request soldier_id) = db).
Proof.
  assert (Forall2 (λ s s' : Soldier.t,
             Soldier.id s' = Soldier.id s ∧
             Soldier.name s' = Soldier.name s ∧
             Soldier.total_services s' = Soldier.total_services s)
          (soldiers db) (soldiers db)) as Hsame
    by (apply Forall_Forall2_diag, Forall_forall; done).
  unfold Routes.edit_soldier, Routes.raised.
  destruct (get_soldier soldier_id (soldiers db)) as [[i s]|] eqn:E;
    [|done].
  apply get_soldier_Some in E as [Hi _].
  destruct (method request); [done|]. cbn [Soldier.role].
  destruct (nonempty (strip (default "" (form request !! "role"))));
    [|done].
  destruct accepted; [|done].
  cbn [stored soldiers assignments unavailabilities].
  split_and!; try done.
  apply Forall2_same_length_lookup_2; [by rewrite length_insert|].
  intros j x y Hx Hy. rewrite list_lookup_insert in Hy.
  case_decide as Hj; [|by simplify_eq].
  destruct Hj as [-> _]. by simplify_eq.
Qed.

(** X16: A soldier is enrolled only with a non-empty name and role, and
    starts with no service counted: the accepted form appends one row,
    with counter zero, and changes nothing else. *)
Theorem new_soldier_starts_at_zero accepted db request :
  succeeded (Routes.soldiers strip allocate_soldier_id accepted db
                             request) →
  ∃ s,
    stored (Routes.soldiers strip allocate_soldier_id accepted db request) =
      {| soldiers := soldiers db ++ [s];
         assignments := assignments db;
         unavailabilities := unavailabilities db |} ∧
    Soldier.total_services s = 0 ∧
    Soldier.id s = allocate_soldier_id (soldiers db) ∧
    nonempty (Soldier.name s) = true ∧
    nonempty (Soldier.role s) = true.
Proof.
  unfold Routes.soldiers, Routes.raised, succeeded.
  destruct (method request); [by intros [? ?]|].
  destruct (nonempty (strip (default "" (form request !! "name"))))
    eqn:Hname; [|intros [? [=]]].
  destruct (nonempty (strip (default "" (form request !! "role"))))
    eqn:Hrole; [|intros [? [=]]].
  destruct accepted; [|by intros [? ?]].
  intros _. simpl. eexists. split; [done|]. by split_and!.
Qed.

(** X17: The [generate] view shows its success message exactly when the run
    has committed all of its effects. *)
Theorem generate_route_reports faults db date_str :
  succeeded (Routes.generate strptime_date allocate_id faults db date_str)
  ↔
  ∃ d, strptime_date date_str = Some d ∧
       response (Routes.generate strptime_date allocate_id faults db
                                 date_str) =
         Some (Redirect "schedule" (Some date_str)) ∧
       stored (Routes.generate strptime_date allocate_id faults db
                               date_str) = applied allocate_id d db.
Proof.
  unfold Routes.generate, succeeded.
  destruct (strptime_date date_str) as [d|] eqn:Hd.
  - rewrite (generate_valid _ _ _ _ _ _ Hd).
    destruct (reset_goes_through faults d db),
             (final_commit_ok faults); simpl.
    + split; [intros _; by exists d|intros _; by eexists].
    + split; [by intros [? ?]|by intros (? & _ & ? & _)].
    + split; [by intros [? ?]|by intros (? & _ & ? & _)].
    + split; [by intros [? ?]|by intros (? & _ & ? & _)].
  - rewrite (generate_invalid _ _ _ _ _ Hd). simpl.
    split; [intros [? [=]]|by intros (? & ? & _)].
Qed.

(** X18: Referential integrity is kept by enrolling, editing and deleting a
    soldier, by confirming a schedule, and by the unavailability form
    when the soldier it names is in the roster. *)
Theorem views_keep_references accepted db request soldier_id date_str :
  references_ok db →
  references_ok
    (stored (Routes.soldiers strip allocate_soldier_id accepted db request))
  ∧
  references_ok
    (stored (Routes.edit_soldier strip accepted db request soldier_id)) ∧
  references_ok (stored (Routes.delete_soldier accepted db soldier_id)) ∧
  references_ok
    (stored (Routes.confirm_schedule strptime_date isoformat accepted db
                                     date_str)) ∧
  ((∀ k, form request !! "soldier_id" ≫= to_int = Some k →
         k ∈ Soldier.id <$> soldiers db) →
   references_ok
     (stored (Routes.unavailability strptime_date strip to_int
                allocate_unavailability_id accepted db request))).
Proof.
  intros Hok. pose proof Hok as [Hasg Huna]. split_and!.
  - unfold Routes.soldiers, Routes.raised.
    repeat case_match; try done.
    split; cbn [stored soldiers assignments unavailabilities];
      intros x Hx; rewrite fmap_app; apply elem_of_app; left; auto.
  - unfold Routes.edit_soldier, Routes.raised.
    destruct (get_soldier soldier_id (soldiers db)) as [[i s]|] eqn:E;
      [|done].
    apply get_soldier_Some in E as [Hi _].
    repeat case_match; try done.
    split; cbn [stored soldiers assignments unavailabilities];
      intros x Hx; rewrite list_fmap_insert; simpl;
      rewrite list_insert_id by (by rewrite list_lookup_fmap, Hi); auto.
  - unfold Routes.delete_soldier, Routes.raised.
    destruct (get_soldier soldier_id (soldiers db)) as [[i s]|] eqn:E;
      [|done].
    apply get_soldier_Some in E as [Hi _].
    destruct accepted; [|done].
    assert (∀ s', s' ∈ soldiers db → Soldier.id s' ≠ Soldier.id s →
                  s' ∈ delete i (soldiers db)) as Hkept.
    { intros s' Hs' Hne.
      eapply delete_elem; [exact Hi|exact Hs'|congruence]. }
    split; cbn [stored soldiers assignments unavailabilities].
    + intros a [Hne Ha]%list_elem_of_filter.
      apply Hasg, list_elem_of_fmap in Ha as (s' & Hid & Hs').
      rewrite Hid. apply list_elem_of_fmap_2, Hkept; congruence.
    + intros u [Hne Hu]%list_elem_of_filter.
      apply Huna, list_elem_of_fmap in Hu as (s' & Hid & Hs').
      rewrite Hid. apply list_elem_of_fmap_2, Hkept; congruence.
  - unfold Routes.confirm_schedule, Routes.raised.
    repeat case_match; try done.
    split; cbn [stored soldiers assignments unavailabilities]; [|done].
    intros a (a0 & -> & Ha0)%list_elem_of_fmap.
    case_decide; simpl; by apply Hasg.
  - intros Hknown. unfold Routes.unavailability, Routes.raised.
    repeat case_match; try done;
      split; cbn [stored soldiers assignments unavailabilities]; try done.
    + intros u [Hu|Hu]%elem_of_app; [by apply Huna|].
      apply list_elem_of_singleton in Hu as ->. simpl. by apply Hknown.
    + intros u Hu%list_elem_of_delete_inv. by apply Huna.
Qed.

(** X19: The unavailability form validates what it records: a record that
    a request adds has the key the database allocates, a soldier id
    other than zero read from the form, the date parsed from the
    stripped date field, and a non-empty reason. *)
Theorem unavailability_records_validated accepted db request u :
  u ∈ unavailabilities
        (stored (Routes.unavailability strptime_date strip to_int
                   allocate_unavailability_id accepted db request)) →
  u ∈ unavailabilities db ∨
  (Unavailability.id u = allocate_unavailability_id (unavailabilities db) ∧
   Unavailability.soldier_id u ≠ 0 ∧
   form request !! "soldier_id" ≫= to_int =
     Some (Unavailability.soldier_id u) ∧
   strptime_date (strip (default "" (form request !! "date"))) =
     Some (Unavailability.date u) ∧
   nonempty (Unavailability.reason u) = true).
Proof.
  unfold Routes.unavailability, Routes.raised.
  destruct (method request); [by left|].
  case_bool_decide as Hadd.
  - destruct (form request !! "soldier_id" ≫= to_int) as [k|] eqn:Hk;
      [|by left].
    destruct (negb (k =? 0) && nonempty _ && nonempty _) eqn:Hvalid;
      [|by left].
    destruct (strptime_date _) as [d|] eqn:Hd; [|by left].
    destruct accepted; [|by left].
    cbn [stored unavailabilities].
    intros [Hu|Hu]%elem_of_app; [by left|right].
    apply list_elem_of_singleton in Hu as ->. simpl.
    apply andb_prop in Hvalid as [Hvalid Hreason].
    apply andb_prop in Hvalid as [Hzero _].
    split_and!; try done.
    apply negb_true_iff, Z.eqb_neq in Hzero. done.
  - case_bool_decide as Hdel; [|by left].
    destruct (_ ≫= _) as [[i x]|]; [|by left].
    destruct accepted; [|by left].
    cbn [stored unavailabilities].
    intros Hu%list_elem_of_delete_inv. by left.
Qed.

End ViewProperties.

(** ** The further theorems at the sample unit *)

Lemma unit_db_references : references_ok unit_db.
Proof.
  split; apply Forall_forall; apply (bool_decide_unpack _); by vm_compute.
Defined.

Lemma assigned_role_matches_witness :
  NoDup (Soldier.id <$> soldiers unit_db) ∧
  iso_date "2024-01-15" = Some jan15 ∧
  outcome (generate no_faults unit_db "2024-01-15") = Returned true ∧
  alpha ∈ soldiers unit_db ∧
  Assignment.mk (Some 2) 1 jan15 "Σκοπιά 00:00-02:00" false
    ∈ assignments_on jan15
        (database (generate no_faults unit_db "2024-01-15")) ∧
  "Σκοπιά" ∈ role_keywords ∧
  contains "Σκοπιά" "Σκοπιά 00:00-02:00" = true ∧
  contains "Σκοπιά" (Soldier.role alpha) = true.
Proof.
  assert (NoDup (Soldier.id <$> soldiers unit_db)) as Hkeys
    by (apply (bool_decide_unpack _); by vm_compute).
  assert (iso_date "2024-01-15" = Some jan15) as Hd by (by vm_compute).
  assert (outcome (generate no_faults unit_db "2024-01-15") = Returned true)
    as Hok by (by vm_compute).
  assert (alpha ∈ soldiers unit_db) as Hs
    by (apply (bool_decide_unpack _); by vm_compute).
  assert (Assignment.mk (Some 2) 1 jan15 "Σκοπιά 00:00-02:00" false
            ∈ assignments_on jan15
                (database (generate no_faults unit_db "2024-01-15")))
    as Ha by (apply (bool_decide_unpack _); by vm_compute).
  assert ("Σκοπιά" ∈ role_keywords) as Hk
    by (apply (bool_decide_unpack _); by vm_compute).
  assert (contains "Σκοπιά" "Σκοπιά 00:00-02:00" = true) as Hc
    by (by vm_compute).
  split; [exact Hkeys|]. split; [exact Hd|]. split; [exact Hok|].
  split; [exact Hs|]. split; [exact Ha|]. split; [exact Hk|].
  split; [exact Hc|].
  exact (assigned_role_matches iso_date rowid_after no_faults unit_db
           "2024-01-15" jan15 alpha _ "Σκοπιά" Hkeys Hd Hok Hs Ha eq_refl
           Hk Hc).
Defined.

Lemma generate_keeps_references_witness :
  references_ok unit_db ∧
  references_ok (database (generate final_commit_rejected unit_db
                                    "2024-01-15")).
Proof.
  split; [exact unit_db_references|].
  exact (generate_keeps_references iso_date rowid_after
           final_commit_rejected unit_db "2024-01-15" unit_db_references).
Defined.

Lemma services_after_run_witness :
  iso_date "2024-01-15" = Some jan15 ∧
  services (soldiers (database (generate no_faults unit_db "2024-01-15"))) =
  services (soldiers unit_db) +
  match outcome (generate no_faults unit_db "2024-01-15") with
  | Returned true =>
      Z.of_nat (length (assignments_on jan15
                          (database (generate no_faults unit_db
                                              "2024-01-15"))))
  | _ => 0
  end.
Proof.
  assert (iso_date "2024-01-15" = Some jan15) as Hd by (by vm_compute).
  split; [exact Hd|].
  exact (services_after_run iso_date rowid_after no_faults unit_db
           "2024-01-15" jan15 Hd).
Defined.

Lemma regeneration_counts_again_witness :
  let first := generate no_faults duo "2024-01-15" in
  let second := generate no_faults (database first) "2024-01-15" in
  iso_date "2024-01-15" = Some jan15 ∧
  outcome first = Returned true ∧
  outcome second = Returned true ∧
  services (soldiers (database second)) =
  services (soldiers duo) +
  Z.of_nat (length (assignments_on jan15 (database first))) +
  Z.of_nat (length (assignments_on jan15 (database second))).
Proof.
  intros first second.
  assert (iso_date "2024-01-15" = Some jan15) as Hd by (by vm_compute).
  assert (outcome first = Returned true) as Hok1 by (by vm_compute).
  assert (outcome second = Returned true) as Hok2 by (by vm_compute).
  split; [exact Hd|]. split; [exact Hok1|]. split; [exact Hok2|].
  exact (regeneration_counts_again iso_date rowid_after no_faults no_faults
           duo "2024-01-15" jan15 Hd Hok1 Hok2).
Defined.

Lemma same_duty_filled_in_order_witness :
  iso_date "2024-01-15" = Some jan15 ∧
  outcome (generate no_faults duo "2024-01-15") = Returned true ∧
  slots = [] ++ "Σκοπιά 00:00-02:00" :: [] ++ "Σκοπιά 02:00-04:00" ::
          [ "Σκοπιά 04:00-06:00"; "Θαλαμοφύλακας Ημέρας"; "Κουζίνα Πρωί" ] ∧
  first_keyword role_keywords "Σκοπιά 00:00-02:00" =
  first_keyword role_keywords "Σκοπιά 02:00-04:00" ∧
  filled jan15 (database (generate no_faults duo "2024-01-15"))
         "Σκοπιά 02:00-04:00" ∧
  filled jan15 (database (generate no_faults duo "2024-01-15"))
         "Σκοπιά 00:00-02:00".
Proof.
  assert (iso_date "2024-01-15" = Some jan15) as Hd by (by vm_compute).
  assert (outcome (generate no_faults duo "2024-01-15") = Returned true)
    as Hok by (by vm_compute).
  assert (first_keyword role_keywords "Σκοπιά 00:00-02:00" =
          first_keyword role_keywords "Σκοπιά 02:00-04:00") as Hkw
    by (by vm_compute).
  assert (filled jan15 (database (generate no_faults duo "2024-01-15"))
                 "Σκοπιά 02:00-04:00") as Hfilled.
  { exists (Assignment.mk (Some 2) 1 jan15 "Σκοπιά 02:00-04:00" false).
    split; [|reflexivity]. apply (bool_decide_unpack _). by vm_compute. }
  split; [exact Hd|]. split; [exact Hok|]. split; [reflexivity|].
  split; [exact Hkw|]. split; [exact Hfilled|].
  exact (same_duty_filled_in_order iso_date rowid_after no_faults duo
           "2024-01-15" jan15 [] "Σκοπιά 00:00-02:00" []
           "Σκοπιά 02:00-04:00" _ Hd Hok eq_refl Hkw Hfilled).
Defined.

Lemma confirm_schedule_confirms_witness :
  iso_date "2024-01-15" = Some jan15 ∧
  succeeded (confirm_view true unit_db "2024-01-15") ∧
  Forall (λ a, Assignment.confirmed a = true)
    (assignments_on jan15 (stored (confirm_view true unit_db "2024-01-15")))
  ∧
  confirm <$> assignments (stored (confirm_view true unit_db "2024-01-15")) =
  confirm <$> assignments unit_db ∧
  (∀ d', d' ≠ jan15 →
     assignments_on d' (stored (confirm_view true unit_db "2024-01-15")) =
     assignments_on d' unit_db) ∧
  soldiers (stored (confirm_view true unit_db "2024-01-15")) =
    soldiers unit_db ∧
  unavailabilities (stored (confirm_view true unit_db "2024-01-15")) =
    unavailabilities unit_db.
Proof.
  assert (iso_date "2024-01-15" = Some jan15) as Hd by (by vm_compute).
  split; [exact Hd|].
  exact (confirm_schedule_confirms iso_date iso_string unit_db "2024-01-15"
           jan15 Hd).
Defined.

Lemma regeneration_discards_confirmation_witness :
  iso_date "2024-01-15" = Some jan15 ∧
  outcome (generate no_faults
             (stored (confirm_view true unit_db "2024-01-15"))
             "2024-01-15") = Returned true ∧
  Forall (λ a, Assignment.confirmed a = false)
    (assignments_on jan15
       (database (generate no_faults
                    (stored (confirm_view true unit_db "2024-01-15"))
                    "2024-01-15"))).
Proof.
  assert (iso_date "2024-01-15" = Some jan15) as Hd by (by vm_compute).
  assert (outcome (generate no_faults
                     (stored (confirm_view true unit_db "2024-01-15"))
                     "2024-01-15") = Returned true) as Hok
    by (by vm_compute).
  split; [exact Hd|]. split; [exact Hok|].
  exact (regeneration_discards_confirmation iso_date iso_string rowid_after
           no_faults unit_db "2024-01-15" jan15 Hd Hok).
Defined.

Lemma delete_soldier_cascades_witness :
  NoDup (Soldier.id <$> soldiers unit_db) ∧
  2 ∈ Soldier.id <$> soldiers unit_db ∧
  succeeded (Routes.delete_soldier true unit_db 2) ∧
  (2 ∉ Soldier.id <$> soldiers (stored (Routes.delete_soldier true unit_db
                                          2))) ∧
  (∀ s, s ∈ soldiers unit_db → Soldier.id s ≠ 2 →
        s ∈ soldiers (stored (Routes.delete_soldier true unit_db 2))) ∧
  assignments (stored (Routes.delete_soldier true unit_db 2)) =
    filter (λ a, Assignment.soldier_id a ≠ 2) (assignments unit_db) ∧
  unavailabilities (stored (Routes.delete_soldier true unit_db 2)) =
    filter (λ u, Unavailability.soldier_id u ≠ 2)
           (unavailabilities unit_db) ∧
  (references_ok unit_db →
   references_ok (stored (Routes.delete_soldier true unit_db 2))).
Proof.
  assert (NoDup (Soldier.id <$> soldiers unit_db)) as Hkeys
    by (apply (bool_decide_unpack _); by vm_compute).
  assert (2 ∈ Soldier.id <$> soldiers unit_db) as Hin
    by (apply (bool_decide_unpack _); by vm_compute).
  split; [exact Hkeys|]. split; [exact Hin|].
  exact (delete_soldier_cascades unit_db 2 Hkeys Hin).
Defined.

Lemma missing_soldier_not_found_witness :
  (9 ∉ Soldier.id <$> soldiers unit_db) ∧
  Routes.delete_soldier true unit_db 9 =
    {| response := Some NotFound; messages := []; stored := unit_db |} ∧
  edit_view true unit_db enrol_request 9 =
    {| response := Some NotFound; messages := []; stored := unit_db |}.
Proof.
  assert (9 ∉ Soldier.id <$> soldiers unit_db) as Hno
    by (apply (bool_decide_unpack _); by vm_compute).
  split; [exact Hno|].
  exact (missing_soldier_not_found strip_ascii true unit_db enrol_request 9
           Hno).
Defined.

Lemma deleted_soldier_never_scheduled_witness :
  NoDup (Soldier.id <$> soldiers unit_db) ∧
  1 ∈ Soldier.id <$> soldiers unit_db ∧
  iso_date "2024-01-15" = Some jan15 ∧
  outcome (generate no_faults (stored (Routes.delete_soldier true unit_db 1))
                    "2024-01-15") = Returned true ∧
  Assignment.mk (Some 1) 3 jan15 "Κουζίνα Πρωί" false
    ∈ assignments
        (database (generate no_faults
                     (stored (Routes.delete_soldier true unit_db 1))
                     "2024-01-15")) ∧
  Assignment.soldier_id
    (Assignment.mk (Some 1) 3 jan15 "Κουζίνα Πρωί" false) ≠ 1.
Proof.
  assert (NoDup (Soldier.id <$> soldiers unit_db)) as Hkeys
    by (apply (bool_decide_unpack _); by vm_compute).
  assert (1 ∈ Soldier.id <$> soldiers unit_db) as Hin
    by (apply (bool_decide_unpack _); by vm_compute).
  assert (iso_date "2024-01-15" = Some jan15) as Hd by (by vm_compute).
  assert (outcome (generate no_faults
                     (stored (Routes.delete_soldier true unit_db 1))
                     "2024-01-15") = Returned true) as Hok
    by (by vm_compute).
  assert (Assignment.mk (Some 1) 3 jan15 "Κουζίνα Πρωί" false
            ∈ assignments
                (database (generate no_faults
                             (stored (Routes.delete_soldier true unit_db 1))
                             "2024-01-15"))) as Ha
    by (apply (bool_decide_unpack _); by vm_compute).
  split; [exact Hkeys|]. split; [exact Hin|]. split; [exact Hd|].
  split; [exact Hok|]. split; [exact Ha|].
  exact (deleted_soldier_never_scheduled iso_date rowid_after no_faults
           unit_db 1 "2024-01-15" jan15 _ Hkeys Hin Hd Hok Ha).
Defined.

Lemma unavailability_blocks_assignment_witness :
  method leave_request = POST ∧
  form leave_request !! "action" = Some "add" ∧
  form leave_request !! "soldier_id" ≫= int_of_digits = Some 1 ∧
  iso_date (strip_ascii (default "" (form leave_request !! "date"))) =
    Some jan15 ∧
  succeeded (unavailability_view true duo leave_request) ∧
  iso_date "2024-01-15" = Some jan15 ∧
  outcome (generate no_faults
             (stored (unavailability_view true duo leave_request))
             "2024-01-15") = Returned true ∧
  Assignment.mk (Some 1) 2 jan15 "Σκοπιά 00:00-02:00" false
    ∈ assignments_on jan15
        (database (generate no_faults
                     (stored (unavailability_view true duo leave_request))
                     "2024-01-15")) ∧
  Assignment.soldier_id
    (Assignment.mk (Some 1) 2 jan15 "Σκοπιά 00:00-02:00" false) ≠ 1.
Proof.
  assert (form leave_request !! "action" = Some "add") as Hact
    by (by vm_compute).
  assert (form leave_request !! "soldier_id" ≫= int_of_digits = Some 1)
    as Hk by (by vm_compute).
  assert (iso_date (strip_ascii (default "" (form leave_request !! "date")))
          = Some jan15) as Hdate by (by vm_compute).
  assert (succeeded (unavailability_view true duo leave_request)) as Hsucc
    by (eexists; by vm_compute).
  assert (iso_date "2024-01-15" = Some jan15) as Hd by (by vm_compute).
  assert (outcome (generate no_faults
                     (stored (unavailability_view true duo leave_request))
                     "2024-01-15") = Returned true) as Hok
    by (by vm_compute).
  assert (Assignment.mk (Some 1) 2 jan15 "Σκοπιά 00:00-02:00" false
            ∈ assignments_on jan15
                (database (generate no_faults
                             (stored (unavailability_view true duo
                                        leave_request))
                             "2024-01-15"))) as Ha
    by (apply (bool_decide_unpack _); by vm_compute).
  split; [reflexivity|]. split; [exact Hact|]. split; [exact Hk|].
  split; [exact Hdate|]. split; [exact Hsucc|]. split; [exact Hd|].
  split; [exact Hok|]. split; [exact Ha|].
  exact (unavailability_blocks_assignment iso_date strip_ascii int_of_digits
           rowid_after next_unavailability_id no_faults duo leave_request 1
           jan15 "2024-01-15" _ eq_refl Hact Hk Hdate Hsucc Hd Hok Ha).
Defined.

Lemma unavailability_add_delete_witness :
  method leave_request = POST ∧
  form leave_request !! "action" = Some "add" ∧
  form leave_request !! "soldier_id" ≫= int_of_digits = Some 1 ∧
  iso_date (strip_ascii (default "" (form leave_request !! "date"))) =
    Some jan15 ∧
  succeeded (unavailability_view true unit_db leave_request) ∧
  (∀ u, u ∈ unavailabilities unit_db →
        Unavailability.id u ≠
        next_unavailability_id (unavailabilities unit_db)) ∧
  method withdraw_request = POST ∧
  form withdraw_request !! "action" = Some "delete" ∧
  form withdraw_request !! "unavail_id" ≫= int_of_digits =
    Some (next_unavailability_id (unavailabilities unit_db)) ∧
  stored (unavailability_view true
            (stored (unavailability_view true unit_db leave_request))
            withdraw_request) = unit_db.
Proof.
  assert (form leave_request !! "action" = Some "add") as Hact
    by (by vm_compute).
  assert (form leave_request !! "soldier_id" ≫= int_of_digits = Some 1)
    as Hk by (by vm_compute).
  assert (iso_date (strip_ascii (default "" (form leave_request !! "date")))
          = Some jan15) as Hdate by (by vm_compute).
  assert (succeeded (unavailability_view true unit_db leave_request))
    as Hsucc by (eexists; by vm_compute).
  assert (∀ u, u ∈ unavailabilities unit_db →
               Unavailability.id u ≠
               next_unavailability_id (unavailabilities unit_db)) as Hfresh
    by (apply Forall_forall; apply (bool_decide_unpack _); by vm_compute).
  assert (form withdraw_request !! "action" = Some "delete") as Hact'
    by (by vm_compute).
  assert (form withdraw_request !! "unavail_id" ≫= int_of_digits =
          Some (next_unavailability_id (unavailabilities unit_db))) as Hid
    by (by vm_compute).
  split; [reflexivity|]. split; [exact Hact|]. split; [exact Hk|].
  split; [exact Hdate|]. split; [exact Hsucc|]. split; [exact Hfresh|].
  split; [reflexivity|]. split; [exact Hact'|]. split; [exact Hid|].
  exact (unavailability_add_delete iso_date strip_ascii int_of_digits
           next_unavailability_id unit_db leave_request withdraw_request 1
           jan15 eq_refl Hact Hk Hdate Hsucc Hfresh eq_refl Hact' Hid).
Defined.

Lemma new_soldier_starts_at_zero_witness :
  succeeded (soldiers_view true unit_db enrol_request) ∧
  ∃ s,
    stored (soldiers_view true unit_db enrol_request) =
      {| soldiers := soldiers unit_db ++ [s];
         assignments := assignments unit_db;
         unavailabilities := unavailabilities unit_db |} ∧
    Soldier.total_services s = 0 ∧
    Soldier.id s = next_soldier_id (soldiers unit_db) ∧
    nonempty (Soldier.name s) = true ∧
    nonempty (Soldier.role s) = true.
Proof.
  assert (succeeded (soldiers_view true unit_db enrol_request)) as Hsucc
    by (eexists; by vm_compute).
  split; [exact Hsucc|].
  exact (new_soldier_starts_at_zero strip_ascii next_soldier_id true unit_db
           enrol_request Hsucc).
Defined.

Lemma views_keep_references_witness :
  references_ok unit_db ∧
  references_ok (stored (soldiers_view true unit_db enrol_request)) ∧
  references_ok (stored (edit_view true unit_db enrol_request 2)) ∧
  references_ok (stored (Routes.delete_soldier true unit_db 2)) ∧
  references_ok (stored (confirm_view true unit_db "2024-01-15")) ∧
  ((∀ k, form enrol_request !! "soldier_id" ≫= int_of_digits = Some k →
         k ∈ Soldier.id <$> soldiers unit_db) →
   references_ok (stored (unavailability_view true unit_db enrol_request))).
Proof.
  split; [exact unit_db_references|].
  exact (views_keep_references iso_date iso_string strip_ascii int_of_digits
           next_soldier_id next_unavailability_id true unit_db
           enrol_request 2 "2024-01-15" unit_db_references).
Defined.

Lemma unavailability_records_validated_witness :
  Unavailability.mk 3 1 jan15 "Άδεια"
    ∈ unavailabilities (stored (unavailability_view true unit_db
                                                    leave_request)) ∧
  (Unavailability.mk 3 1 jan15 "Άδεια" ∈ unavailabilities unit_db ∨
   (Unavailability.id (Unavailability.mk 3 1 jan15 "Άδεια") =
      next_unavailability_id (unavailabilities unit_db) ∧
    Unavailability.soldier_id (Unavailability.mk 3 1 jan15 "Άδεια") ≠ 0 ∧
    form leave_request !! "soldier_id" ≫= int_of_digits =
      Some (Unavailability.soldier_id
              (Unavailability.mk 3 1 jan15 "Άδεια")) ∧
    iso_date (strip_ascii (default "" (form leave_request !! "date"))) =
      Some (Unavailability.date (Unavailability.mk 3 1 jan15 "Άδεια")) ∧
    nonempty (Unavailability.reason (Unavailability.mk 3 1 jan15 "Άδεια"))
      = true)).
Proof.
  assert (Unavailability.mk 3 1 jan15 "Άδεια"
            ∈ unavailabilities (stored (unavailability_view true unit_db
                                                            leave_request)))
    as Hu by (apply (bool_decide_unpack _); by vm_compute).
  split; [exact Hu|].
  exact (unavailability_records_validated iso_date strip_ascii int_of_digits
           next_unavailability_id true unit_db leave_request _ Hu).
Defined.
